(** * TizenRT binary manager: user binary files and entry creation

    A shallow embedding of [os/kernel/binary_manager/binary_manager_binfile.c]
    and the properties of its three functions:
    - [binary_manager_clear_binfile]  (the stale version collector),
    - [binary_manager_scan_ubin]      (the discovery scanner),
    - [binary_manager_create_entry]   (the entry-creation service).

    The C code runs against a file system, an in-memory binary table, the
    kernel partition data and a response message queue.  These are gathered in
    a [world] record that every operation threads through a small state
    monad.  C integers are [Z], C strings are [string] (the characters before
    the terminator), and a [char *] that may be [NULL] is an [option string]. *)

From Stdlib Require Import ZArith List String Ascii Bool Lia.
From Stdlib Require Import DecimalString DecimalPos DecimalZ.
Import ListNotations.

Local Open Scope Z_scope.
Local Open Scope bool_scope.

(* ================================================================== *)
(** ** The C library functions the file calls *)

Module LibC.

(** [strlen]. *)
Definition strlen (s : string) : nat := String.length s.

(** The value a character has in a comparison. *)
Definition code (c : ascii) : Z := Z.of_nat (nat_of_ascii c).

(** [strncmp(cs, ct, nb)]: at most [nb] characters are compared; the end of
    a string compares as the terminator, whose value is 0. *)
Fixpoint strncmp (cs ct : string) (nb : nat) : Z :=
  match nb with
  | O => 0
  | S nb' =>
    match cs, ct with
    | EmptyString, EmptyString => 0
    | EmptyString, String d _ => 0 - code d
    | String c _, EmptyString => code c
    | String c cs', String d ct' =>
      if (c =? d)%char then strncmp cs' ct' nb' else code c - code d
    end
  end.

(** [snprintf(buf, size, fmt, ...)] keeps the first [size - 1] characters of
    the formatted text; the argument is the text already formatted. *)
Definition snprintf (size : nat) (formatted : string) : string :=
  substring 0 (size - 1) formatted.

(** [strncpy(dst, src, n)] copies at most [n] characters. *)
Definition strncpy (src : string) (n : nat) : string := substring 0 n src.

(** The [%d] conversion. *)
Definition fmt_d (z : Z) : string := NilZero.string_of_int (Z.to_int z).

(** [s[i]]; reading the terminator gives [None]. *)
Definition char_at (s : string) (i : nat) : option ascii := String.get i s.

(** A C string holds no NUL character before its terminator. *)
Fixpoint cstring (s : string) : bool :=
  match s with
  | EmptyString => true
  | String c s' => negb (c =? zero)%char && cstring s'
  end.

(** [<sys/types.h>]: the status values of the system calls. *)
Definition OK : Z := 0.
Definition ERROR : Z := -1.

(** [<dirent.h>]: the type bits of a directory entry. *)
Definition DTYPE_FILE : Z := 1.
Definition DIRENT_ISFILE (dtype : Z) : bool :=
  negb (Z.land dtype DTYPE_FILE =? 0).

End LibC.
Import LibC.

(* ================================================================== *)
(** ** Constants of [binary_manager.h] and [tinyara/binary_manager.h]

    The headers are not part of the sources at hand, so the macros the file
    uses are the fields of a configuration the whole development is
    parameterised by. *)

Class Config := {
  BINARY_DIR_PATH : string;
  NAME_MAX : nat;
  CONFIG_PATH_MAX : nat;
  BIN_NAME_MAX : nat;
  BIN_PRIVMQ_LEN : nat;
  BINMGR_RESPONSE_MQ_PREFIX : string;
  (** [BINMGR_DEVNAME_FMT] applied to the two arguments the call passes. *)
  BINMGR_DEVNAME_FMT : Z -> Z -> string;
  BINMGR_OK : Z;
  BINMGR_OPERATION_FAIL : Z;
  BINMGR_INVALID_PARAM : Z;
  BINMGR_NOT_FOUND : Z;
  BINMGR_ALREADY_UPDATED : Z;
  ENOENT : Z;
  EEXIST : Z;
  EISDIR : Z
}.

(** The binary table ([bin_table] behind the [BIN_NAME] and [BIN_VER] macros)
    with the two functions of [binary_manager.c] called here.  Both receive a
    binary name and nothing else. *)
Class BinaryTable := {
  bin_table_t : Type;
  BIN_NAME : bin_table_t -> Z -> string;
  BIN_VER : bin_table_t -> Z -> Z;
  binary_manager_get_index_with_name : bin_table_t -> string -> Z;
  binary_manager_register_ubin : bin_table_t -> string -> Z * bin_table_t
}.

(* ================================================================== *)
(** ** Data *)

(** Modelled from the spec: the result of the header parser,
    [read_header(path) -> Result<{bin_name, version, ...}, Error>]. *)
Record binary_header_t := {
  bin_name : string;
  bin_ver : Z
}.

(** A directory entry ([struct dirent]) together with what the header parser
    makes of the file's contents. *)
Record dirent := {
  d_name : string;
  d_type : Z;
  d_header : option binary_header_t
}.

Record part_info_t := { part_num : Z }.

Record binmgr_kinfo_t := {
  part_count : Z;
  inuse_idx : Z;
  part_info : list part_info_t
}.

Record binmgr_createbin_response_t := {
  result : Z;
  binpath : string
}.

Definition set_result (r : Z) (m : binmgr_createbin_response_t) :=
  {| result := r; binpath := binpath m |}.
Definition set_binpath (p : string) (m : binmgr_createbin_response_t) :=
  {| result := result m; binpath := p |}.

Section Manager.

Context {cfg : Config} {tbl : BinaryTable}.

(** Everything the three functions read or change.
    - [store]: the directory [BINARY_DIR_PATH]; [None] when it does not
      exist.
    - [faults]: what the environment does to the coming system calls; every
      call of [opendir], [unlink], [open] and [mkdir] takes the head:
      [Some e] makes that call fail with [errno = e], [None] (or an
      exhausted list) lets it behave as the state of [store] dictates.
    - [next_fd]: the descriptor a successful [open] returns.
    - [auto_response]: the indeterminate contents [response_msg] starts
      with.
    - [mq]: the messages handed to [binary_manager_send_response], oldest
      first, each with the queue name it was addressed to. *)
Record world := {
  store : option (list dirent);
  faults : list (option Z);
  errno : Z;
  next_fd : Z;
  bin_table : bin_table_t;
  kdata : binmgr_kinfo_t;
  auto_response : binmgr_createbin_response_t;
  mq : list (string * binmgr_createbin_response_t)
}.

Definition set_store (s : option (list dirent)) (w : world) : world :=
  {| store := s; faults := faults w; errno := errno w; next_fd := next_fd w;
     bin_table := bin_table w; kdata := kdata w;
     auto_response := auto_response w; mq := mq w |}.
Definition set_faults (f : list (option Z)) (w : world) : world :=
  {| store := store w; faults := f; errno := errno w; next_fd := next_fd w;
     bin_table := bin_table w; kdata := kdata w;
     auto_response := auto_response w; mq := mq w |}.
Definition set_errno (e : Z) (w : world) : world :=
  {| store := store w; faults := faults w; errno := e; next_fd := next_fd w;
     bin_table := bin_table w; kdata := kdata w;
     auto_response := auto_response w; mq := mq w |}.
Definition set_bin_table (t : bin_table_t) (w : world) : world :=
  {| store := store w; faults := faults w; errno := errno w;
     next_fd := next_fd w; bin_table := t; kdata := kdata w;
     auto_response := auto_response w; mq := mq w |}.
Definition set_mq (q : list (string * binmgr_createbin_response_t))
    (w : world) : world :=
  {| store := store w; faults := faults w; errno := errno w;
     next_fd := next_fd w; bin_table := bin_table w; kdata := kdata w;
     auto_response := auto_response w; mq := q |}.

(** *** The state monad *)

Definition M (A : Type) : Type := world -> A * world.
Definition ret {A} (a : A) : M A := fun w => (a, w).
Definition bind {A B} (m : M A) (k : A -> M B) : M B :=
  fun w => let (a, w') := m w in k a w'.
Definition gets {A} (f : world -> A) : M A := fun w => (f w, w).
Definition modify (f : world -> world) : M unit := fun w => (tt, f w).

Notation "x <- m ;; k" := (bind m (fun x => k))
  (at level 61, m at next level, right associativity).
Notation "m ;;; k" := (bind m (fun _ => k))
  (at level 61, right associativity).

(** *** The file system calls *)

Definition pop_fault : M (option Z) := fun w =>
  (hd None (faults w), set_faults (tl (faults w)) w).

Fixpoint strip_prefix (p s : string) : option string :=
  match p with
  | EmptyString => Some s
  | String c p' =>
    match s with
    | EmptyString => None
    | String d s' => if (c =? d)%char then strip_prefix p' s' else None
    end
  end.

Fixpoint no_slash (s : string) : bool :=
  match s with
  | EmptyString => true
  | String c s' => negb (c =? "/")%char && no_slash s'
  end.

(** A file name: not empty and without a slash. *)
Definition valid_name (n : string) : bool :=
  no_slash n && negb (n =? EmptyString)%string.

(** The entry of the store a path names, when it names one: the path is
    [BINARY_DIR_PATH], a slash and a file name.  The store is the only
    directory of the model; every other path names nothing. *)
Definition store_child (path : string) : option string :=
  match strip_prefix (BINARY_DIR_PATH ++ "/") path with
  | Some n => if valid_name n then Some n else None
  | None => None
  end.

Definition named (n : string) (e : dirent) : bool := (d_name e =? n)%string.

(** [opendir]: the stream of entries [readdir] will return, or [None] for
    the null pointer. *)
Definition opendir (path : string) : M (option (list dirent)) :=
  f <- pop_fault ;;
  match f with
  | Some e => modify (set_errno e) ;;; ret None
  | None =>
    s <- gets store ;;
    match s with
    | Some entries =>
      if (path =? BINARY_DIR_PATH)%string then ret (Some entries)
      else modify (set_errno ENOENT) ;;; ret None
    | None => modify (set_errno ENOENT) ;;; ret None
    end
  end.

(** [unlink]: removes the regular file the path names. *)
Definition unlink (path : string) : M Z :=
  f <- pop_fault ;;
  match f with
  | Some e => modify (set_errno e) ;;; ret ERROR
  | None =>
    s <- gets store ;;
    match s, store_child path with
    | Some entries, Some n =>
      if existsb (fun e => named n e && DIRENT_ISFILE (d_type e)) entries
      then
        modify (set_store (Some (filter
          (fun e => negb (named n e && DIRENT_ISFILE (d_type e))) entries))) ;;;
        ret OK
      else modify (set_errno ENOENT) ;;; ret ERROR
    | _, _ => modify (set_errno ENOENT) ;;; ret ERROR
    end
  end.

(** The empty regular file [open] creates. *)
Definition new_file (n : string) : dirent :=
  {| d_name := n; d_type := DTYPE_FILE; d_header := None |}.

(** [open(path, O_RDWR | O_CREAT, 0666)]: opens the file, creating it when
    it is missing; returns the descriptor, or -1. *)
Definition open_creat (path : string) : M Z :=
  f <- pop_fault ;;
  match f with
  | Some e => modify (set_errno e) ;;; ret (-1)
  | None =>
    s <- gets store ;;
    match s, store_child path with
    | Some entries, Some n =>
      match find (named n) entries with
      | Some e =>
        if DIRENT_ISFILE (d_type e) then gets next_fd
        else modify (set_errno EISDIR) ;;; ret (-1)
      | None =>
        modify (set_store (Some (entries ++ [new_file n]))) ;;;
        gets next_fd
      end
    | _, _ => modify (set_errno ENOENT) ;;; ret (-1)
    end
  end.

(** [mkdir(path, 0777)]. *)
Definition mkdir (path : string) : M Z :=
  f <- pop_fault ;;
  match f with
  | Some e => modify (set_errno e) ;;; ret ERROR
  | None =>
    s <- gets store ;;
    match s with
    | Some _ => modify (set_errno EEXIST) ;;; ret ERROR
    | None =>
      if (path =? BINARY_DIR_PATH)%string
      then modify (set_store (Some [])) ;;; ret OK
      else modify (set_errno ENOENT) ;;; ret ERROR
    end
  end.

(** Modelled from the spec: [binary_manager_read_header], the header parser
    ([read_header(path) -> Result<{bin_name, version, ...}, Error>]); [None]
    stands for a negative return value. *)
Definition binary_manager_read_header (path : string)
    : M (option binary_header_t) :=
  s <- gets store ;;
  match s, store_child path with
  | Some entries, Some n =>
    match find (named n) entries with
    | Some e => if DIRENT_ISFILE (d_type e) then ret (d_header e) else ret None
    | None => ret None
    end
  | _, _ => ret None
  end.

(** Modelled from the spec: [binary_manager_send_response], the transport of
    the response ("an opaque addressed channel"): the message is put on the
    queue of that name. *)
Definition binary_manager_send_response (q_name : string)
    (msg : binmgr_createbin_response_t) : M unit :=
  modify (fun w => set_mq (mq w ++ [(q_name, msg)]) w).

(** [binary_manager_get_kdata]: the kernel partition data. *)
Definition binary_manager_get_kdata : M binmgr_kinfo_t := gets kdata.

(** The two table functions as actions on the world. *)
Definition get_index_with_name (name : string) : M Z :=
  gets (fun w => binary_manager_get_index_with_name (bin_table w) name).
Definition register_ubin (name : string) : M Z := fun w =>
  let (r, t) := binary_manager_register_ubin (bin_table w) name in
  (r, set_bin_table t w).

(* ---------------------------------------------------------------- *)
(** *** binary_manager_clear_binfile *)

(** The condition of the [if] in the loop: the entry is a binary file which
    is not running. *)
Definition not_running (bin_name running_file : string) (entryp : dirent)
    : bool :=
  let name_len := strlen bin_name in
  DIRENT_ISFILE (d_type entryp)
  && (strncmp (d_name entryp) bin_name name_len =? 0)
  && match char_at (d_name entryp) name_len with
     | Some c => (c =? "_")%char
     | None => false
     end
  && negb (strncmp (d_name entryp) running_file (strlen running_file) =? 0).

(** The [for (;;)] loop over [readdir]. *)
Fixpoint clear_loop (bin_name running_file : string) (dirp : list dirent)
    : M unit :=
  match dirp with
  | [] => ret tt
  | entryp :: rest =>
    (if not_running bin_name running_file entryp then
       let filepath :=
         snprintf NAME_MAX (BINARY_DIR_PATH ++ "/" ++ d_name entryp) in
       unlink filepath ;;; ret tt
     else ret tt) ;;;
    clear_loop bin_name running_file rest
  end.

Definition binary_manager_clear_binfile (bin_idx : Z) : M Z :=
  t <- gets bin_table ;;
  let running_file :=
    snprintf NAME_MAX (BIN_NAME t bin_idx ++ "_" ++ fmt_d (BIN_VER t bin_idx)) in
  let bin_name := BIN_NAME t bin_idx in
  dirp <- opendir BINARY_DIR_PATH ;;
  match dirp with
  | Some entries =>
    clear_loop bin_name running_file entries ;;;
    ret BINMGR_OK
  | None =>
    e <- gets errno ;;
    if negb (e =? ENOENT) then ret BINMGR_OPERATION_FAIL
    else ret BINMGR_OK
  end.

(* ---------------------------------------------------------------- *)
(** *** binary_manager_scan_ubin *)

Fixpoint scan_loop (dirp : list dirent) : M unit :=
  match dirp with
  | [] => ret tt
  | entryp :: rest =>
    (if DIRENT_ISFILE (d_type entryp) then
       let filepath :=
         snprintf CONFIG_PATH_MAX (BINARY_DIR_PATH ++ "/" ++ d_name entryp) in
       r <- binary_manager_read_header filepath ;;
       match r with
       | None => ret tt
       | Some header_data =>
         register_ubin (bin_name header_data) ;;; ret tt
       end
     else ret tt) ;;;
    scan_loop rest
  end.

Definition binary_manager_scan_ubin : M unit :=
  dirp <- opendir BINARY_DIR_PATH ;;
  match dirp with
  | Some entries => scan_loop entries
  | None => ret tt
  end.

(* ---------------------------------------------------------------- *)
(** *** binary_manager_create_entry *)

Definition default_part : part_info_t := {| part_num := 0 |}.

(** [kerinfo->part_info[i]]. *)
Definition part_at (kerinfo : binmgr_kinfo_t) (i : Z) : part_info_t :=
  nth (Z.to_nat i) (part_info kerinfo) default_part.

(** The device name written for partition [i] of the kernel. *)
Definition kernel_devname (kerinfo : binmgr_kinfo_t) (i : Z) : string :=
  snprintf CONFIG_PATH_MAX
    (BINMGR_DEVNAME_FMT (part_num (part_at kerinfo i))
                        (Z.of_nat CONFIG_PATH_MAX)).

(** The path of the file for a version of a binary. *)
Definition binfile_path (bin_name : string) (version : Z) : string :=
  snprintf CONFIG_PATH_MAX
    (BINARY_DIR_PATH ++ "/" ++ bin_name ++ "_" ++ fmt_d version).

(** From "Create a new file" down to the label: the file is created, after
    the directory when that is what was missing. *)
Definition create_new_file (bin_name : string) (version : Z)
    (response_msg : binmgr_createbin_response_t)
    : M binmgr_createbin_response_t :=
  let response_msg := set_result BINMGR_OPERATION_FAIL response_msg in
  let filepath := binfile_path bin_name version in
  fd <- open_creat filepath ;;
  if fd >? 0 then
    ret (set_result BINMGR_OK
           (set_binpath (strncpy filepath CONFIG_PATH_MAX) response_msg))
  else
    e <- gets errno ;;
    if e =? ENOENT then
      r <- mkdir BINARY_DIR_PATH ;;
      if r =? OK then
        fd <- open_creat filepath ;;
        if fd >? 0 then
          ret (set_result BINMGR_OK
                 (set_binpath (strncpy filepath CONFIG_PATH_MAX) response_msg))
        else ret response_msg
      else ret response_msg
    else ret response_msg.

(** The user path before "Create a new file": the binary is looked up; a
    registered one has its old files cleared, an unknown one is registered.
    [Some r] when the request ends here with result [r] (the jumps to
    [send_result]), [None] when it goes on to create the file. *)
Definition prepare_user_binary (bin_name : string) (version : Z)
    : M (option Z) :=
  bin_idx <- get_index_with_name bin_name ;;
  if bin_idx >=? 0 then
    t <- gets bin_table ;;
    if BIN_VER t bin_idx =? version then ret (Some BINMGR_ALREADY_UPDATED)
    else
      r <- binary_manager_clear_binfile bin_idx ;;
      if r <? 0 then ret (Some r) else ret None
  else
    r <- register_ubin bin_name ;;
    if r <? 0 then ret (Some BINMGR_OPERATION_FAIL) else ret None.

(** The body down to the label [send_result]: the response to send. *)
Definition create_entry_response (requester_pid : Z)
    (bin_name : option string) (version : Z)
    : M binmgr_createbin_response_t :=
  response_msg <- gets auto_response ;;
  match bin_name with
  | None => ret (set_result BINMGR_INVALID_PARAM response_msg)
  | Some bin_name =>
    if (requester_pid <? 0) || (version <? 0) then
      ret (set_result BINMGR_INVALID_PARAM response_msg)
    else if strncmp "kernel" bin_name BIN_NAME_MAX =? 0 then
      kerinfo <- binary_manager_get_kdata ;;
      if part_count kerinfo >? 1 then
        ret (set_binpath
               (kernel_devname kerinfo (Z.lxor (inuse_idx kerinfo) 1))
               (set_result BINMGR_OK response_msg))
      else ret (set_result BINMGR_NOT_FOUND response_msg)
    else
      early <- prepare_user_binary bin_name version ;;
      match early with
      | Some r => ret (set_result r response_msg)
      | None => create_new_file bin_name version response_msg
      end
  end.

(** The name of the response queue of a requester. *)
Definition response_q_name (requester_pid : Z) : string :=
  snprintf BIN_PRIVMQ_LEN (BINMGR_RESPONSE_MQ_PREFIX ++ fmt_d requester_pid).

Definition binary_manager_create_entry (requester_pid : Z)
    (bin_name : option string) (version : Z) : M Z :=
  response_msg <- create_entry_response requester_pid bin_name version ;;
  let q_name := response_q_name requester_pid in
  binary_manager_send_response q_name response_msg ;;;
  ret (result response_msg).

(* ---------------------------------------------------------------- *)
(** *** Vocabulary of the statements *)

(** An action preserves an observation of the world. *)
Definition preserves {A X : Type} (f : world -> X) (m : M A) : Prop :=
  forall w, f (snd (m w)) = f w.

(** The world after a message went to the queue of a requester. *)
Definition sent (requester_pid : Z) (msg : binmgr_createbin_response_t)
    (w : world) : world :=
  set_mq (mq w ++ [(response_q_name requester_pid, msg)]) w.

(** The world once the head of the fault script is taken. *)
Definition after_call (w : world) : world := set_faults (tl (faults w)) w.

(** The entries of the store the loop removes when it runs over [dirp]. *)
Definition removed_by (N R : string) (dirp : list dirent) (e : dirent)
    : bool :=
  DIRENT_ISFILE (d_type e)
  && existsb (fun s => not_running N R s && (d_name s =? d_name e)%string)
             dirp.

(** What the loop does with one entry. *)
Definition scan_entry (entryp : dirent) (w : world) : world :=
  if DIRENT_ISFILE (d_type entryp) then
    match fst (binary_manager_read_header
                 (snprintf CONFIG_PATH_MAX
                    (BINARY_DIR_PATH ++ "/" ++ d_name entryp)) w) with
    | Some header_data => snd (register_ubin (bin_name header_data) w)
    | None => w
    end
  else w.

(** A store the scanner can read: no name twice, every name a file name, and
    every path within [CONFIG_PATH_MAX]. *)
Definition scannable (entries : list dirent) : Prop :=
  NoDup (map d_name entries)
  /\ forall e, In e entries ->
       valid_name (d_name e) = true
       /\ (String.length BINARY_DIR_PATH + 1 + String.length (d_name e)
           < CONFIG_PATH_MAX)%nat.

(** Two entries that differ at most in the version their headers hold. *)
Definition same_but_version (e e' : dirent) : Prop :=
  d_name e = d_name e' /\ d_type e = d_type e'
  /\ option_map bin_name (d_header e) = option_map bin_name (d_header e').

(** Two stores that differ at most in the versions the headers hold. *)
Definition same_but_versions (s s' : option (list dirent)) : Prop :=
  match s, s' with
  | Some entries, Some entries' => Forall2 same_but_version entries entries'
  | None, None => True
  | _, _ => False
  end.

(** The names the scanner hands to the binary table, in directory order: the
    name in the header of every regular file whose header parses. *)
Definition parsed_names (entries : list dirent) : list string :=
  flat_map
    (fun e =>
       if DIRENT_ISFILE (d_type e) then
         match d_header e with
         | Some header_data => [bin_name header_data]
         | None => []
         end
       else [])
    entries.

(** The binary table after the names are registered one after the other. *)
Definition register_all (names : list string) (t : bin_table_t)
    : bin_table_t :=
  fold_left (fun t n => snd (binary_manager_register_ubin t n)) names t.

(** The store once a file of a name is opened for writing in it. *)
Definition with_file (fname : string) (entries : list dirent)
    : list dirent :=
  match find (named fname) entries with
  | Some _ => entries
  | None => entries ++ [new_file fname]
  end.

(** The path the collector hands to [unlink] for an entry. *)
Definition unlink_path (entryp : dirent) : string :=
  snprintf NAME_MAX (BINARY_DIR_PATH ++ "/" ++ d_name entryp).

(** The name of the running file as the collector writes it. *)
Definition running_file (bin_idx : Z) (w : world) : string :=
  snprintf NAME_MAX
    (BIN_NAME (bin_table w) bin_idx ++ "_"
     ++ fmt_d (BIN_VER (bin_table w) bin_idx)).

End Manager.

(* ================================================================== *)
(** ** The binary registry of the specification *)

Module Registry.

Inductive bin_kind := Kernel | User.

(** One entry per known binary. *)
Record BinarySlot := {
  name : string;
  kind : bin_kind;
  current_version : Z
}.

Definition registry := list BinarySlot.

Fixpoint index_from (n : string) (r : registry) (i : Z) : Z :=
  match r with
  | [] => -1
  | s :: r' => if (name s =? n)%string then i else index_from n r' (i + 1)
  end.

Definition slot_at (r : registry) (i : Z) : option BinarySlot :=
  if i <? 0 then None else nth_error r (Z.to_nat i).

(** Modelled from the spec: the lookup of a name in the Binary Registry
    ([binary_manager_get_index_with_name], not in the sources at hand):
    the index of the slot of that name, negative when there is none. *)
Definition get_index (r : registry) (n : string) : Z := index_from n r 0.

(** Modelled from the spec: registration of a name
    ([binary_manager_register_ubin], not in the sources at hand): "if the
    named binary is not already present in the Binary Registry, it is
    registered with kind = User".  The call carries the name alone, so the
    version of the new slot is a constant of the registry, [unset]. *)
Definition register (unset : Z) (r : registry) (n : string)
    : Z * registry :=
  if get_index r n >=? 0 then (ERROR, r)
  else (Z.of_nat (List.length r),
        r ++ [{| name := n; kind := User; current_version := unset |}]).

Definition name_at (r : registry) (i : Z) : string :=
  match slot_at r i with Some s => name s | None => EmptyString end.
Definition version_at (r : registry) (i : Z) : Z :=
  match slot_at r i with Some s => current_version s | None => 0 end.

(** Modelled from the spec: the Binary Registry as the binary table of the
    manager; [BIN_NAME] and [BIN_VER] read the name and the current version
    of the slot at an index. *)
Definition table (unset : Z) : BinaryTable :=
  {| bin_table_t := registry;
     BIN_NAME := name_at;
     BIN_VER := version_at;
     binary_manager_get_index_with_name := get_index;
     binary_manager_register_ubin := register unset |}.

(** How many slots carry a name. *)
Definition count (n : string) (r : registry) : nat :=
  List.length (filter (fun s => (name s =? n)%string) r).

(** What registration adds: nothing, or one slot of kind [User] with the
    version [unset], under a name no slot carried. *)
Inductive extends (unset : Z) (r : registry) : registry -> Prop :=
| extends_same : extends unset r r
| extends_slot n :
    (forall s, In s r -> name s <> n) ->
    extends unset r
      (r ++ [{| name := n; kind := User; current_version := unset |}]).

(** The registry after any number of registrations: the old slots first,
    then slots of kind [User] with the version [unset], and no name more
    often than once unless it was so before. *)
Definition grown (unset : Z) (r r' : registry) : Prop :=
  (exists added,
     r' = r ++ added
     /\ forall s, In s added -> kind s = User /\ current_version s = unset)
  /\ forall n, (count n r' <= Nat.max 1 (count n r))%nat.

End Registry.

(** A configuration to run the model on: the values of a typical board. *)
Definition board_config : Config :=
  {| BINARY_DIR_PATH := "/mnt/bins";
     NAME_MAX := 32;
     CONFIG_PATH_MAX := 64;
     BIN_NAME_MAX := 16;
     BIN_PRIVMQ_LEN := 16;
     BINMGR_RESPONSE_MQ_PREFIX := "binmgr_res";
     BINMGR_DEVNAME_FMT := fun n _ => ("/dev/mtdblock" ++ fmt_d n)%string;
     BINMGR_OK := 0;
     BINMGR_OPERATION_FAIL := -2;
     BINMGR_INVALID_PARAM := -4;
     BINMGR_NOT_FOUND := -6;
     BINMGR_ALREADY_UPDATED := -8;
     ENOENT := 2;
     EEXIST := 17;
     EISDIR := 21 |}.

(** A world of that board: the store, the registry and the kernel data are
    given, no system call is made to fail, and nothing has been sent. *)
Definition board_world (unset : Z) (s : option (list dirent))
    (r : Registry.registry) (k : binmgr_kinfo_t)
    : @world (Registry.table unset) :=
  @Build_world (Registry.table unset) s [] 0 3 r k
    {| result := 0; binpath := EmptyString |} [].

Definition file (n : string) (h : option binary_header_t) : dirent :=
  {| d_name := n; d_type := DTYPE_FILE; d_header := h |}.

Definition one_kernel : binmgr_kinfo_t :=
  {| part_count := 1; inuse_idx := 0; part_info := [{| part_num := 4 |}] |}.

Definition hdr (n : string) (v : Z) : option binary_header_t :=
  Some {| bin_name := n; bin_ver := v |}.

Definition foo_slot : Registry.BinarySlot :=
  {| Registry.name := "foo"; Registry.kind := Registry.User;
     Registry.current_version := 1 |}.

Definition two_kernels (inuse : Z) : binmgr_kinfo_t :=
  {| part_count := 2; inuse_idx := inuse;
     part_info := [{| part_num := 4 |}; {| part_num := 5 |}] |}.

(** Binary [foo] runs version 1; its file and two others are in the store,
    next to a file of binary [foobar]. *)
Definition foo_world : @world (Registry.table 0) :=
  board_world 0
    (Some [file "foo_1" None; file "foo_2" None; file "foobar_1" None;
           file "foo_3" None])
    [foo_slot] one_kernel.

(** Binary [foo] is registered with version 1 and was never loaded: the
    store holds files of other versions only. *)
Definition staged_world : @world (Registry.table 0) :=
  board_world 0
    (Some [file "foo_2" None; file "foo_3" None; file "foobar_1" None])
    [foo_slot] one_kernel.

(** A fresh board: no store directory, nothing registered. *)
Definition fresh_world : @world (Registry.table 0) :=
  board_world 0 None [] one_kernel.

(** The store holds one file, whose header names [app] at version 7. *)
Definition app_world : @world (Registry.table 0) :=
  board_world 0 (Some [file "app_7" (hdr "app" 7)]) [] one_kernel.

(** The store holds two versions of binary [a]. *)
Definition two_versions_world : @world (Registry.table 0) :=
  board_world 0 (Some [file "a_1" (hdr "a" 1); file "a_2" (hdr "a" 2)])
    [] one_kernel.

(** The store is there, and the next system call fails with [EACCES]. *)
Definition locked_world : @world (Registry.table 0) :=
  set_faults [Some 13] foo_world.

(** A binary table that knows no name and has no room for one. *)
Definition full_table : BinaryTable :=
  {| bin_table_t := unit;
     BIN_NAME := fun _ _ => EmptyString;
     BIN_VER := fun _ _ => 0;
     binary_manager_get_index_with_name := fun _ _ => -1;
     binary_manager_register_ubin := fun t _ => (ERROR, t) |}.

(** A board whose store is there and empty. *)
Definition empty_store_world : @world (Registry.table 0) :=
  board_world 0 (Some []) [] one_kernel.

(** A board with that table, and a store that is there and empty. *)
Definition full_world : @world full_table :=
  @Build_world full_table (Some []) [] 0 3 tt one_kernel
    {| result := 0; binpath := EmptyString |} [].

(** The store of [foo_world] can be opened and every [unlink] fails. *)
Definition stuck_world : @world (Registry.table 0) :=
  set_faults [None; Some 13; Some 13; Some 13; Some 13] foo_world.

(* ================================================================== *)
(** ** Facts about the C library functions *)

Module LibCFacts.

Lemma length_app (a b : string) :
  String.length (a ++ b) = (String.length a + String.length b)%nat.
Proof. induction a as [|c a IH]; simpl; [reflexivity | now rewrite IH]. Qed.

Lemma app_assoc (a b c : string) : ((a ++ b) ++ c = a ++ (b ++ c))%string.
Proof. induction a as [|x a IH]; simpl; [reflexivity | now rewrite IH]. Qed.

Lemma substring_whole (s : string) (n : nat) :
  (String.length s <= n)%nat -> substring 0 n s = s.
Proof.
  revert n; induction s as [|c s IH]; intros n Hn.
  - now destruct n.
  - destruct n as [|n]; simpl in *; [lia |].
    rewrite IH by lia. reflexivity.
Qed.

(** Text shorter than the buffer is stored whole. *)
Lemma snprintf_fits (size : nat) (s : string) :
  (String.length s < size)%nat -> snprintf size s = s.
Proof. intros H. unfold snprintf. apply substring_whole. lia. Qed.

Lemma strncpy_fits (n : nat) (s : string) :
  (String.length s <= n)%nat -> strncpy s n = s.
Proof. apply substring_whole. Qed.

Lemma code_diff (c d : ascii) : (c =? d)%char = false -> code c - code d <> 0.
Proof.
  intros H E. apply Ascii.eqb_neq in H. apply H.
  rewrite <- (ascii_nat_embedding c), <- (ascii_nat_embedding d).
  unfold code in E. f_equal. lia.
Qed.

Lemma code_nonzero (c : ascii) : (c =? zero)%char = false -> code c <> 0.
Proof.
  intros H E. apply Ascii.eqb_neq in H. apply H.
  rewrite <- (ascii_nat_embedding c). unfold code in E.
  replace (nat_of_ascii c) with 0%nat by lia. reflexivity.
Qed.

Lemma prefix_cons (a b : ascii) (p s : string) :
  String.prefix (String a p) (String b s)
  = (a =? b)%char && String.prefix p s.
Proof.
  simpl. destruct (ascii_dec a b) as [->|N].
  - now rewrite Ascii.eqb_refl.
  - apply Ascii.eqb_neq in N. now rewrite N.
Qed.

Lemma prefix_nil (s : string) : String.prefix EmptyString s = true.
Proof. now destruct s. Qed.

Lemma prefix_refl (s : string) : String.prefix s s = true.
Proof.
  induction s as [|c s IH]; [reflexivity |].
  rewrite prefix_cons, Ascii.eqb_refl. exact IH.
Qed.

(** [strncmp] over the length of a pattern tells whether the pattern is a
    prefix. *)
Lemma strncmp_prefix (p d : string) :
  cstring p = true ->
  (strncmp d p (strlen p) =? 0) = String.prefix p d.
Proof.
  revert d; induction p as [|c p IH]; intros d Hp.
  - now destruct d.
  - simpl in Hp. apply andb_true_iff in Hp as [Hc Hp].
    apply negb_true_iff in Hc.
    destruct d as [|x d].
    + simpl. apply Z.eqb_neq. pose proof (code_nonzero c Hc). lia.
    + rewrite prefix_cons, (Ascii.eqb_sym c x). simpl.
      destruct (x =? c)%char eqn:E; simpl.
      * apply IH; assumption.
      * apply Z.eqb_neq. now apply code_diff.
Qed.

(** A pattern that is a prefix, with an underscore right behind it. *)
Lemma prefix_underscore (p d : string) :
  String.prefix p d
  && match char_at d (strlen p) with
     | Some c => (c =? "_")%char
     | None => false
     end
  = String.prefix (p ++ "_") d.
Proof.
  revert d; induction p as [|c p IH]; intros d.
  - destruct d as [|x d]; [reflexivity |].
    change ((EmptyString ++ "_")%string) with (String "_" EmptyString).
    rewrite prefix_cons, !prefix_nil, andb_true_r.
    unfold char_at, strlen. cbn [String.length get andb].
    apply Ascii.eqb_sym.
  - destruct d as [|x d]; [reflexivity |].
    change (String c p ++ "_")%string with (String c (p ++ "_")).
    rewrite !prefix_cons, <- IH, andb_assoc. reflexivity.
Qed.

Lemma prefix_app (p q s : string) :
  String.prefix (p ++ q) s = true -> String.prefix p s = true.
Proof.
  revert s; induction p as [|c p IH]; intros s H.
  - apply prefix_nil.
  - destruct s as [|x s]; [discriminate |].
    change (String c p ++ q)%string with (String c (p ++ q)) in H.
    rewrite prefix_cons in *. apply andb_true_iff in H as [H1 H2].
    rewrite H1. simpl. now apply IH.
Qed.

Lemma cstring_app (a b : string) :
  cstring (a ++ b) = cstring a && cstring b.
Proof.
  induction a as [|c a IH]; simpl; [reflexivity |].
  now rewrite IH, andb_assoc.
Qed.

Lemma cstring_uint (d : Decimal.uint) :
  cstring (NilEmpty.string_of_uint d) = true.
Proof. induction d; simpl; auto. Qed.

Lemma cstring_fmt_d (z : Z) : cstring (fmt_d z) = true.
Proof.
  unfold fmt_d. destruct (Z.to_int z) as [d|d]; simpl;
    destruct d; simpl; auto using cstring_uint.
Qed.

End LibCFacts.
Import LibCFacts.

(* ================================================================== *)
(** ** What each operation leaves alone *)

Section Frames.

Context {cfg : Config} {tbl : BinaryTable}.

Lemma preserves_ret {A X} (f : world -> X) (a : A) : preserves f (ret a).
Proof. intros w. reflexivity. Qed.

Lemma preserves_gets {A X} (f : world -> X) (g : world -> A) :
  preserves f (gets g).
Proof. intros w. reflexivity. Qed.

Lemma preserves_modify {X} (f : world -> X) (g : world -> world) :
  (forall w, f (g w) = f w) -> preserves f (modify g).
Proof. intros H w. apply H. Qed.

Lemma preserves_bind {A B X} (f : world -> X) (m : M A) (k : A -> M B) :
  preserves f m -> (forall a, preserves f (k a)) -> preserves f (bind m k).
Proof.
  intros Hm Hk w. unfold bind. specialize (Hm w).
  destruct (m w) as [a w1]. simpl in Hm. rewrite <- Hm. apply Hk.
Qed.

Lemma preserves_pop_fault {X} (f : world -> X) :
  (forall l w, f (set_faults l w) = f w) -> preserves f pop_fault.
Proof.
  intros H w. unfold pop_fault. apply H.
Qed.

Lemma preserves_register_ubin {X} (f : world -> X) (n : string) :
  (forall t w, f (set_bin_table t w) = f w) -> preserves f (register_ubin n).
Proof.
  intros H w. unfold register_ubin.
  destruct (binary_manager_register_ubin (bin_table w) n). apply H.
Qed.

Create HintDb frame.

(** Splits an action along its binds and case distinctions. *)
Ltac frame :=
  repeat first
    [ apply preserves_ret
    | apply preserves_gets
    | apply preserves_modify; intros; reflexivity
    | apply preserves_pop_fault; intros; reflexivity
    | apply preserves_register_ubin; intros; reflexivity
    | solve [auto with frame]
    | apply preserves_bind; [| intros]
    | match goal with
      | |- preserves _ (match ?x with _ => _ end) => destruct x
      | |- preserves _ (let _ := _ in _) => cbv zeta
      end ].

(** **** The message queue changes only by a send. *)

Lemma mq_opendir p : preserves mq (opendir p).
Proof. unfold opendir. frame. Qed.
Lemma mq_unlink p : preserves mq (unlink p).
Proof. unfold unlink. frame. Qed.
Lemma mq_open_creat p : preserves mq (open_creat p).
Proof. unfold open_creat. frame. Qed.
Lemma mq_mkdir p : preserves mq (mkdir p).
Proof. unfold mkdir. frame. Qed.
Hint Resolve mq_opendir mq_unlink mq_open_creat mq_mkdir : frame.

Lemma mq_clear_loop n r dirp : preserves mq (clear_loop n r dirp).
Proof. induction dirp; simpl; frame. Qed.
Hint Resolve mq_clear_loop : frame.

Lemma mq_clear_binfile i : preserves mq (binary_manager_clear_binfile i).
Proof. unfold binary_manager_clear_binfile. frame. Qed.
Lemma mq_create_new_file n v r : preserves mq (create_new_file n v r).
Proof. unfold create_new_file. frame. Qed.
Hint Resolve mq_clear_binfile mq_create_new_file : frame.

Lemma mq_prepare_user_binary n v : preserves mq (prepare_user_binary n v).
Proof. unfold prepare_user_binary, get_index_with_name. frame. Qed.
Hint Resolve mq_prepare_user_binary : frame.

Lemma mq_create_entry_response p n v :
  preserves mq (create_entry_response p n v).
Proof.
  unfold create_entry_response, binary_manager_get_kdata. frame.
Qed.

(** **** The file system calls leave the binary table alone. *)

Lemma table_opendir p : preserves bin_table (opendir p).
Proof. unfold opendir. frame. Qed.
Lemma table_unlink p : preserves bin_table (unlink p).
Proof. unfold unlink. frame. Qed.
Lemma table_open_creat p : preserves bin_table (open_creat p).
Proof. unfold open_creat. frame. Qed.
Lemma table_mkdir p : preserves bin_table (mkdir p).
Proof. unfold mkdir. frame. Qed.
Hint Resolve table_opendir table_unlink table_open_creat table_mkdir : frame.

Lemma table_clear_loop n r dirp : preserves bin_table (clear_loop n r dirp).
Proof. induction dirp; simpl; frame. Qed.
Hint Resolve table_clear_loop : frame.

Lemma table_clear_binfile i :
  preserves bin_table (binary_manager_clear_binfile i).
Proof. unfold binary_manager_clear_binfile. frame. Qed.
Lemma table_create_new_file n v r :
  preserves bin_table (create_new_file n v r).
Proof. unfold create_new_file. frame. Qed.

(** **** The scanner leaves the store alone. *)

Lemma store_opendir p : preserves store (opendir p).
Proof. unfold opendir. frame. Qed.
Lemma store_read_header p : preserves store (binary_manager_read_header p).
Proof. unfold binary_manager_read_header. frame. Qed.
Hint Resolve store_opendir store_read_header : frame.

Lemma store_scan_loop dirp : preserves store (scan_loop dirp).
Proof. induction dirp; simpl; frame. Qed.
Hint Resolve store_scan_loop : frame.

Lemma store_scan_ubin : preserves store binary_manager_scan_ubin.
Proof. unfold binary_manager_scan_ubin. frame. Qed.

End Frames.

(* ================================================================== *)
(** ** The entry-creation service: response, validation, kernel, versions *)

Section EntryCreation.

Context {cfg : Config} {tbl : BinaryTable}.

Lemma create_entry_unfold pid name version w :
  binary_manager_create_entry pid name version w
  = (result (fst (create_entry_response pid name version w)),
     sent pid (fst (create_entry_response pid name version w))
          (snd (create_entry_response pid name version w))).
Proof.
  unfold binary_manager_create_entry, bind, binary_manager_send_response,
    modify, ret, sent.
  destruct (create_entry_response pid name version w) as [m w1].
  reflexivity.
Qed.

Lemma strncmp_same (s : string) (n : nat) : strncmp s s n = 0.
Proof.
  revert s; induction n as [|n IH]; intros [|c s]; simpl; try reflexivity.
  rewrite Ascii.eqb_refl. apply IH.
Qed.

(** The response of a request that fails validation. *)
Lemma response_invalid pid name version w :
  pid < 0 \/ name = None \/ version < 0 ->
  create_entry_response pid name version w
  = (set_result BINMGR_INVALID_PARAM (auto_response w), w).
Proof.
  intros H. unfold create_entry_response, bind, gets, ret.
  destruct name as [n|]; [| reflexivity].
  destruct H as [H | [H | H]]; [| discriminate |].
  - apply Z.ltb_lt in H. rewrite H. reflexivity.
  - apply Z.ltb_lt in H. rewrite H, orb_true_r. reflexivity.
Qed.

(** The response of a valid request for the kernel. *)
Lemma response_kernel pid version w :
  0 <= pid -> 0 <= version ->
  create_entry_response pid (Some "kernel"%string) version w
  = (if part_count (kdata w) >? 1
     then set_binpath
            (kernel_devname (kdata w) (Z.lxor (inuse_idx (kdata w)) 1))
            (set_result BINMGR_OK (auto_response w))
     else set_result BINMGR_NOT_FOUND (auto_response w), w).
Proof.
  intros Hp Hv. unfold create_entry_response, bind, gets, ret,
    binary_manager_get_kdata.
  apply Z.ltb_ge in Hp, Hv. rewrite Hp, Hv, strncmp_same. simpl.
  destruct (part_count (kdata w) >? 1); reflexivity.
Qed.

(** The response of a valid request for the version a registered user
    binary already has. *)
Lemma response_already_updated pid name version w :
  0 <= pid -> 0 <= version ->
  strncmp "kernel" name BIN_NAME_MAX <> 0 ->
  0 <= binary_manager_get_index_with_name (bin_table w) name ->
  BIN_VER (bin_table w)
    (binary_manager_get_index_with_name (bin_table w) name) = version ->
  create_entry_response pid (Some name) version w
  = (set_result BINMGR_ALREADY_UPDATED (auto_response w), w).
Proof.
  intros Hp Hv Hk Hi Hver.
  apply Z.ltb_ge in Hp, Hv. apply Z.eqb_neq in Hk.
  apply Z.geb_le in Hi. apply Z.eqb_eq in Hver.
  cbv beta iota delta [create_entry_response prepare_user_binary bind gets
    ret get_index_with_name].
  rewrite Hp, Hv, Hk. cbv beta iota delta [orb].
  rewrite Hi. cbv beta iota. rewrite Hver. reflexivity.
Qed.

(** The queues after a call: the queues before it and the response, on the
    queue of the requester. *)
Lemma create_entry_mq pid name version w :
  mq (snd (binary_manager_create_entry pid name version w))
  = mq w ++ [(response_q_name pid,
              fst (create_entry_response pid name version w))].
Proof.
  rewrite create_entry_unfold. simpl.
  now rewrite (mq_create_entry_response pid name version w).
Qed.

(** C2: every call of [binary_manager_create_entry], whatever its
    arguments and whatever path it takes, adds exactly one message to the
    response queues: the response it computed, on the queue whose name is
    computed from the requester's pid alone. *)
Theorem create_entry_sends_one_response pid name version w :
  exists msg,
    mq (snd (binary_manager_create_entry pid name version w))
    = mq w ++ [(response_q_name pid, msg)]
    /\ msg = fst (create_entry_response pid name version w)
    /\ List.length (mq (snd (binary_manager_create_entry pid name version w)))
       = S (List.length (mq w)).
Proof.
  exists (fst (create_entry_response pid name version w)).
  rewrite create_entry_mq, List.length_app. simpl.
  repeat split. lia.
Qed.

(** C10: the value [binary_manager_create_entry] returns is the result code
    of the one message it sends to the requester's queue. *)
Theorem create_entry_returns_sent_result pid name version w :
  exists msg,
    mq (snd (binary_manager_create_entry pid name version w))
    = mq w ++ [(response_q_name pid, msg)]
    /\ fst (binary_manager_create_entry pid name version w) = result msg.
Proof.
  exists (fst (create_entry_response pid name version w)).
  split; [apply create_entry_mq |].
  rewrite create_entry_unfold. reflexivity.
Qed.

(** C3 (amended): a request with a negative pid, a null name or a negative
    version is answered [BINMGR_INVALID_PARAM]; the store and the binary
    table are as before, and the response is the only thing that
    happened. *)
Theorem create_entry_invalid_param pid name version w :
  pid < 0 \/ name = None \/ version < 0 ->
  fst (binary_manager_create_entry pid name version w)
  = BINMGR_INVALID_PARAM
  /\ snd (binary_manager_create_entry pid name version w)
     = sent pid (set_result BINMGR_INVALID_PARAM (auto_response w)) w
  /\ store (snd (binary_manager_create_entry pid name version w)) = store w
  /\ bin_table (snd (binary_manager_create_entry pid name version w))
     = bin_table w.
Proof.
  intros H. rewrite create_entry_unfold, (response_invalid _ _ _ _ H).
  repeat split.
Qed.

(** C4: a valid request for ["kernel"] is answered [BINMGR_OK] with the
    device name of partition 1 when there are two partitions and
    partition 0 is in use, with the device name of partition 0 when
    partition 1 is in use, and [BINMGR_NOT_FOUND] when there is one
    partition; in every case the store and the binary table are as
    before. *)
Theorem create_entry_kernel pid version w :
  0 <= pid -> 0 <= version ->
  let out := binary_manager_create_entry pid (Some "kernel"%string) version w in
  (part_count (kdata w) = 2 -> inuse_idx (kdata w) = 0 ->
     out = (BINMGR_OK,
            sent pid {| result := BINMGR_OK;
                        binpath := kernel_devname (kdata w) 1 |} w))
  /\ (part_count (kdata w) = 2 -> inuse_idx (kdata w) = 1 ->
        out = (BINMGR_OK,
               sent pid {| result := BINMGR_OK;
                           binpath := kernel_devname (kdata w) 0 |} w))
  /\ (part_count (kdata w) = 1 ->
        out = (BINMGR_NOT_FOUND,
               sent pid (set_result BINMGR_NOT_FOUND (auto_response w)) w))
  /\ store (snd out) = store w
  /\ bin_table (snd out) = bin_table w.
Proof.
  intros Hp Hv out. subst out.
  rewrite create_entry_unfold, (response_kernel _ _ _ Hp Hv). simpl.
  repeat split.
  - intros Hc Hi. rewrite Hc, Hi. reflexivity.
  - intros Hc Hi. rewrite Hc, Hi. reflexivity.
  - intros Hc. rewrite Hc. reflexivity.
Qed.

(** C5: a valid request for a registered user binary whose version is the
    requested one is answered [BINMGR_ALREADY_UPDATED] and leaves the
    store and the binary table as they were; so does the same request
    made again. *)
Theorem create_entry_already_updated pid name version w :
  0 <= pid -> 0 <= version ->
  strncmp "kernel" name BIN_NAME_MAX <> 0 ->
  0 <= binary_manager_get_index_with_name (bin_table w) name ->
  BIN_VER (bin_table w)
    (binary_manager_get_index_with_name (bin_table w) name) = version ->
  let once := binary_manager_create_entry pid (Some name) version w in
  let twice := binary_manager_create_entry pid (Some name) version (snd once) in
  fst once = BINMGR_ALREADY_UPDATED
  /\ store (snd once) = store w
  /\ bin_table (snd once) = bin_table w
  /\ fst twice = BINMGR_ALREADY_UPDATED
  /\ store (snd twice) = store w
  /\ bin_table (snd twice) = bin_table w.
Proof.
  intros Hp Hv Hk Hi Hver once twice. subst twice once.
  rewrite (create_entry_unfold pid (Some name) version w),
    (response_already_updated _ _ _ w Hp Hv Hk Hi Hver).
  cbn [fst snd].
  rewrite create_entry_unfold, response_already_updated; auto.
  repeat split.
Qed.

End EntryCreation.

(* ================================================================== *)
(** ** The file system calls when the environment lets them be *)

Section QuietCalls.

Context {cfg : Config} {tbl : BinaryTable}.

Lemma strip_prefix_app (p s : string) : strip_prefix p (p ++ s) = Some s.
Proof.
  induction p as [|c p IH]; simpl; [reflexivity |].
  now rewrite Ascii.eqb_refl.
Qed.

(** A path made of the directory, a slash and a file name names that
    entry, when the buffer of [size] characters holds it whole. *)
Lemma store_child_path (size : nat) (n : string) :
  valid_name n = true ->
  (String.length BINARY_DIR_PATH + 1 + String.length n < size)%nat ->
  store_child (snprintf size (BINARY_DIR_PATH ++ "/" ++ n)) = Some n.
Proof.
  intros Hv Hl. rewrite snprintf_fits.
  - unfold store_child.
    rewrite <- LibCFacts.app_assoc, strip_prefix_app, Hv. reflexivity.
  - rewrite !length_app. simpl. lia.
Qed.

Lemma pop_fault_quiet w : faults w = [] -> pop_fault w = (None, w).
Proof.
  intros H. unfold pop_fault. rewrite H. destruct w. simpl in H.
  now subst.
Qed.

Lemma filter_none {A} (f : A -> bool) (l : list A) :
  existsb f l = false -> filter (fun a => negb (f a)) l = l.
Proof.
  induction l as [|a l IH]; simpl; [reflexivity |].
  intros H. apply orb_false_iff in H as [Ha Hl].
  rewrite Ha. simpl. now rewrite IH.
Qed.

Lemma filter_filter {A} (f g : A -> bool) (l : list A) :
  filter f (filter g l) = filter (fun a => g a && f a) l.
Proof.
  induction l as [|a l IH]; simpl; [reflexivity |].
  destruct (g a); simpl; [destruct (f a) |]; now rewrite IH.
Qed.

(** [unlink] of a path that names an entry leaves the store without the
    regular file of that name. *)
Lemma unlink_quiet path n entries w :
  faults w = [] -> store w = Some entries -> store_child path = Some n ->
  store (snd (unlink path w))
  = Some (filter (fun e => negb (named n e && DIRENT_ISFILE (d_type e)))
                 entries)
  /\ faults (snd (unlink path w)) = [].
Proof.
  intros Hf Hs Hc.
  cbv beta iota delta [unlink bind gets modify ret].
  rewrite (pop_fault_quiet w Hf), Hs, Hc.
  destruct (existsb _ entries) eqn:E; simpl.
  - split; [reflexivity | exact Hf].
  - split; [| exact Hf].
    rewrite Hs. f_equal. symmetry.
    apply (filter_none (fun e => named n e && DIRENT_ISFILE (d_type e))).
    exact E.
Qed.

(** [opendir] of the store when it exists. *)
Lemma opendir_quiet entries w :
  faults w = [] -> store w = Some entries ->
  opendir BINARY_DIR_PATH w = (Some entries, w).
Proof.
  intros Hf Hs. cbv beta iota delta [opendir bind gets modify ret].
  rewrite (pop_fault_quiet w Hf), Hs, String.eqb_refl. reflexivity.
Qed.

End QuietCalls.

(* ================================================================== *)
(** ** The stale version collector *)

Section StaleVersions.

Context {cfg : Config} {tbl : BinaryTable}.

(** The test of the loop in terms of prefixes: a regular file whose name
    starts with the binary name and an underscore, and does not start with
    the name of the running file. *)
Lemma not_running_prefix (N R : string) (e : dirent) :
  cstring N = true -> cstring R = true ->
  not_running N R e
  = DIRENT_ISFILE (d_type e)
    && String.prefix (N ++ "_") (d_name e)
    && negb (String.prefix R (d_name e)).
Proof.
  intros HN HR. unfold not_running.
  rewrite (strncmp_prefix N _ HN), (strncmp_prefix R _ HR).
  rewrite <- (prefix_underscore N (d_name e)), !andb_assoc. reflexivity.
Qed.

Lemma clear_loop_cons (N R : string) (s : dirent) (rest : list dirent) w :
  clear_loop N R (s :: rest) w
  = clear_loop N R rest
      (if not_running N R s
       then snd (unlink
              (snprintf NAME_MAX (BINARY_DIR_PATH ++ "/" ++ d_name s)) w)
       else w).
Proof.
  cbn [clear_loop]. unfold bind, ret.
  destruct (not_running N R s); [| reflexivity].
  now destruct (unlink _ w).
Qed.

Lemma clear_loop_store (N R : string) (dirp : list dirent) :
  forall w cur,
    faults w = [] -> store w = Some cur ->
    (forall s, In s dirp -> not_running N R s = true ->
       store_child (snprintf NAME_MAX (BINARY_DIR_PATH ++ "/" ++ d_name s))
       = Some (d_name s)) ->
    store (snd (clear_loop N R dirp w))
    = Some (filter (fun e => negb (removed_by N R dirp e)) cur)
    /\ faults (snd (clear_loop N R dirp w)) = [].
Proof.
  induction dirp as [|s rest IH]; intros w cur Hf Hs Hpath.
  - simpl. split; [| exact Hf]. rewrite Hs. f_equal. symmetry.
    rewrite <- (filter_true cur) at 2. apply filter_ext. intros e.
    unfold removed_by. simpl. now rewrite andb_false_r.
  - rewrite clear_loop_cons.
    assert (Hrest : forall s', In s' rest -> not_running N R s' = true ->
              store_child (snprintf NAME_MAX
                             (BINARY_DIR_PATH ++ "/" ++ d_name s'))
              = Some (d_name s')).
    { intros s' Hin. apply Hpath. now right. }
    destruct (not_running N R s) eqn:E.
    + destruct (unlink_quiet _ (d_name s) cur w Hf Hs
                  (Hpath s (or_introl eq_refl) E)) as [Hs1 Hf1].
      destruct (IH _ _ Hf1 Hs1 Hrest) as [Hs2 Hf2].
      split; [| exact Hf2]. rewrite Hs2, filter_filter. f_equal.
      apply filter_ext. intros e. unfold removed_by, named.
      cbn [existsb]. rewrite E, (String.eqb_sym (d_name s) (d_name e)).
      destruct (DIRENT_ISFILE (d_type e)), (d_name e =? d_name s)%string;
        reflexivity.
    + destruct (IH w cur Hf Hs Hrest) as [Hs2 Hf2].
      split; [| exact Hf2]. rewrite Hs2. f_equal.
      apply filter_ext. intros e. unfold removed_by.
      cbn [existsb]. rewrite E. reflexivity.
Qed.

(** Run over the store itself, the loop removes exactly the entries that
    pass its test. *)
Lemma removed_by_self (N R : string) (entries : list dirent) (e : dirent) :
  In e entries ->
  removed_by N R entries e = not_running N R e.
Proof.
  intros Hin. unfold removed_by.
  destruct (not_running N R e) eqn:E.
  - assert (Hf : DIRENT_ISFILE (d_type e) = true).
    { unfold not_running in E. now destruct (DIRENT_ISFILE (d_type e)). }
    rewrite Hf. apply existsb_exists. exists e.
    now rewrite E, String.eqb_refl.
  - destruct (DIRENT_ISFILE (d_type e)) eqn:Hf; [| reflexivity].
    simpl. destruct (existsb _ entries) eqn:X; [| reflexivity].
    apply existsb_exists in X as (s & _ & Hs).
    apply andb_true_iff in Hs as [Hs Hn]. apply String.eqb_eq in Hn.
    unfold not_running in *. rewrite Hn, Hf in *.
    destruct (DIRENT_ISFILE (d_type s)); [| discriminate].
    simpl in *. congruence.
Qed.

(** The store after a run of the collector that could open the directory
    and whose removals went through. *)
Lemma clear_binfile_store bin_idx entries w :
  faults w = [] -> store w = Some entries ->
  let N := BIN_NAME (bin_table w) bin_idx in
  let R := snprintf NAME_MAX
             (N ++ "_" ++ fmt_d (BIN_VER (bin_table w) bin_idx)) in
  (forall s, In s entries -> not_running N R s = true ->
     store_child (snprintf NAME_MAX (BINARY_DIR_PATH ++ "/" ++ d_name s))
     = Some (d_name s)) ->
  fst (binary_manager_clear_binfile bin_idx w) = BINMGR_OK
  /\ store (snd (binary_manager_clear_binfile bin_idx w))
     = Some (filter (fun e => negb (not_running N R e)) entries)
  /\ faults (snd (binary_manager_clear_binfile bin_idx w)) = [].
Proof.
  intros Hf Hs N R Hpath.
  cbv beta iota zeta delta [binary_manager_clear_binfile bind gets ret].
  rewrite (opendir_quiet entries w Hf Hs).
  destruct (clear_loop_store N R entries w entries Hf Hs Hpath) as [H1 H2].
  fold N. fold R.
  destruct (clear_loop N R entries w) as [u w1]. cbn [fst snd] in *.
  repeat split; [| exact H2]. rewrite H1. f_equal.
  apply filter_ext_in. intros e Hin. now rewrite removed_by_self.
Qed.

(** C1 (amended): after a run of the collector for a slot with name [N]
    and version [V], in a store it can open, where removals go through and
    every path fits the buffer it is written to: nothing was added and the
    binary table is as before; every regular file whose name starts with
    [N_] and does not start with [N_V] is gone; an entry named [N_V] is
    still there, and so is every entry whose name does not start with
    [N_]. *)
Theorem clear_binfile_removes_other_versions bin_idx entries w :
  let N := BIN_NAME (bin_table w) bin_idx in
  let R := (N ++ "_" ++ fmt_d (BIN_VER (bin_table w) bin_idx))%string in
  store w = Some entries ->
  faults w = [] ->
  cstring N = true ->
  (String.length R < NAME_MAX)%nat ->
  (forall e, In e entries ->
     valid_name (d_name e) = true
     /\ (String.length BINARY_DIR_PATH + 1 + String.length (d_name e)
         < NAME_MAX)%nat) ->
  let out := binary_manager_clear_binfile bin_idx w in
  fst out = BINMGR_OK
  /\ bin_table (snd out) = bin_table w
  /\ exists remaining,
       store (snd out) = Some remaining
       /\ (forall e, In e remaining -> In e entries)
       /\ (forall e, In e entries ->
             DIRENT_ISFILE (d_type e) = true ->
             String.prefix (N ++ "_") (d_name e) = true ->
             String.prefix R (d_name e) = false ->
             ~ In e remaining)
       /\ (forall e, In e entries -> d_name e = R -> In e remaining)
       /\ (forall e, In e entries ->
             String.prefix (N ++ "_") (d_name e) = false ->
             In e remaining).
Proof.
  intros N R Hs Hf HN HR Hfit out.
  assert (HcR : cstring R = true).
  { unfold R. rewrite !cstring_app, HN, cstring_fmt_d. reflexivity. }
  assert (Hrun : snprintf NAME_MAX R = R) by now apply snprintf_fits.
  destruct (clear_binfile_store bin_idx entries w Hf Hs) as (H1 & H2 & _).
  { intros s Hin _. destruct (Hfit s Hin). now apply store_child_path. }
  fold N in H1, H2. fold R in H2. rewrite Hrun in H2. fold out in H1, H2.
  split; [exact H1 |]. split; [apply table_clear_binfile |].
  eexists. split; [exact H2 |].
  repeat split.
  - intros e He. apply filter_In in He. tauto.
  - intros e Hin Hfile Hpre Hnot He. apply filter_In in He as [_ He].
    rewrite (not_running_prefix N R e HN HcR), Hfile, Hpre, Hnot in He.
    discriminate.
  - intros e Hin Hname. apply filter_In. split; [exact Hin |].
    rewrite (not_running_prefix N R e HN HcR), Hname, prefix_refl.
    now rewrite andb_false_r.
  - intros e Hin Hpre. apply filter_In. split; [exact Hin |].
    rewrite (not_running_prefix N R e HN HcR), Hpre.
    now rewrite andb_false_r.
Qed.

End StaleVersions.

(* ================================================================== *)
(** ** Failing system calls *)

Section Failures.

Context {cfg : Config} {tbl : BinaryTable}.

Lemma opendir_fault p e rest w :
  faults w = Some e :: rest ->
  opendir p w = (None, set_errno e (set_faults rest w)).
Proof.
  intros H. cbv beta iota delta [opendir bind pop_fault modify ret].
  rewrite H. reflexivity.
Qed.

Lemma opendir_absent p w :
  store w = None -> hd None (faults w) = None ->
  opendir p w = (None, set_errno ENOENT (after_call w)).
Proof.
  intros Hs Hf.
  cbv beta iota delta [opendir bind pop_fault modify ret gets after_call].
  rewrite Hf. cbn [store set_faults]. rewrite Hs. reflexivity.
Qed.

Lemma open_creat_fault p e rest w :
  faults w = Some e :: rest ->
  open_creat p w = (-1, set_errno e (set_faults rest w)).
Proof.
  intros H. cbv beta iota delta [open_creat bind pop_fault modify ret].
  rewrite H. reflexivity.
Qed.

Lemma open_creat_absent p w :
  store w = None -> hd None (faults w) = None ->
  open_creat p w = (-1, set_errno ENOENT (after_call w)).
Proof.
  intros Hs Hf.
  cbv beta iota delta [open_creat bind pop_fault modify ret gets after_call].
  rewrite Hf. cbn [store set_faults]. rewrite Hs. reflexivity.
Qed.

Lemma open_creat_new p n entries w :
  store w = Some entries -> hd None (faults w) = None ->
  store_child p = Some n -> find (named n) entries = None ->
  open_creat p w
  = (next_fd w, set_store (Some (entries ++ [new_file n])) (after_call w)).
Proof.
  intros Hs Hf Hc Hn.
  cbv beta iota delta [open_creat bind pop_fault modify ret gets after_call].
  rewrite Hf. cbn [store set_faults]. rewrite Hs, Hc, Hn. reflexivity.
Qed.

Lemma mkdir_fault p e rest w :
  faults w = Some e :: rest ->
  mkdir p w = (ERROR, set_errno e (set_faults rest w)).
Proof.
  intros H. cbv beta iota delta [mkdir bind pop_fault modify ret].
  rewrite H. reflexivity.
Qed.

Lemma mkdir_absent w :
  store w = None -> hd None (faults w) = None ->
  mkdir BINARY_DIR_PATH w = (OK, set_store (Some []) (after_call w)).
Proof.
  intros Hs Hf.
  cbv beta iota delta [mkdir bind pop_fault modify ret gets after_call].
  rewrite Hf. cbn [store set_faults]. rewrite Hs, String.eqb_refl.
  reflexivity.
Qed.

(** The collector when [opendir] fails for another reason than a missing
    directory. *)
Lemma clear_binfile_fault bin_idx e rest w :
  faults w = Some e :: rest -> e <> ENOENT ->
  binary_manager_clear_binfile bin_idx w
  = (BINMGR_OPERATION_FAIL, set_errno e (set_faults rest w)).
Proof.
  intros Hf He.
  cbv beta iota zeta delta [binary_manager_clear_binfile bind gets ret].
  rewrite (opendir_fault _ e rest w Hf). cbn [errno set_errno].
  apply Z.eqb_neq in He. rewrite He. reflexivity.
Qed.

(** The collector when the directory is missing. *)
Lemma clear_binfile_absent bin_idx w :
  store w = None -> hd None (faults w) = None ->
  binary_manager_clear_binfile bin_idx w
  = (BINMGR_OK, set_errno ENOENT (after_call w)).
Proof.
  intros Hs Hf.
  cbv beta iota zeta delta [binary_manager_clear_binfile bind gets ret].
  rewrite (opendir_absent _ w Hs Hf). cbn [errno set_errno].
  rewrite Z.eqb_refl. reflexivity.
Qed.

(** C8: the collector reports [BINMGR_OK] and clears nothing when the
    store directory is missing; it reports [BINMGR_OPERATION_FAIL] when
    the directory exists and [opendir] fails with another error than
    [ENOENT]; and a request for a new version of a registered binary that
    meets this failure is answered with that (negative) result, with no
    file created and the binary table as before. *)
Theorem clear_binfile_open_failure bin_idx w :
  (store w = None -> hd None (faults w) = None ->
     fst (binary_manager_clear_binfile bin_idx w) = BINMGR_OK
     /\ store (snd (binary_manager_clear_binfile bin_idx w)) = None
     /\ bin_table (snd (binary_manager_clear_binfile bin_idx w))
        = bin_table w)
  /\ (forall entries e rest,
        store w = Some entries -> faults w = Some e :: rest ->
        e <> ENOENT ->
        fst (binary_manager_clear_binfile bin_idx w)
        = BINMGR_OPERATION_FAIL
        /\ store (snd (binary_manager_clear_binfile bin_idx w))
           = Some entries)
  /\ (forall pid name version entries e rest,
        0 <= pid -> 0 <= version ->
        strncmp "kernel" name BIN_NAME_MAX <> 0 ->
        binary_manager_get_index_with_name (bin_table w) name = bin_idx ->
        0 <= bin_idx ->
        BIN_VER (bin_table w) bin_idx <> version ->
        store w = Some entries -> faults w = Some e :: rest ->
        e <> ENOENT ->
        BINMGR_OPERATION_FAIL < 0 ->
        let out := binary_manager_create_entry pid (Some name) version w in
        fst out = BINMGR_OPERATION_FAIL
        /\ store (snd out) = Some entries
        /\ bin_table (snd out) = bin_table w
        /\ faults (snd out) = rest).
Proof.
  split; [| split].
  - intros Hs Hf. rewrite (clear_binfile_absent _ _ Hs Hf).
    cbn [fst snd store bin_table set_errno after_call set_faults].
    auto.
  - intros entries e rest Hs Hf He.
    rewrite (clear_binfile_fault _ _ _ _ Hf He).
    cbn [fst snd store set_errno set_faults]. auto.
  - intros pid name version entries e rest Hp Hv Hk Hi Hidx Hver Hs Hf He
      Hneg out. subst out.
    rewrite create_entry_unfold.
    apply Z.ltb_ge in Hp, Hv. apply Z.eqb_neq in Hk, Hver.
    apply Z.geb_le in Hidx. apply Z.ltb_lt in Hneg.
    cbv beta iota delta [create_entry_response prepare_user_binary bind
      gets ret get_index_with_name].
    rewrite Hp, Hv, Hk. cbv beta iota delta [orb].
    rewrite Hi, Hidx. cbv beta iota. rewrite Hver.
    rewrite (clear_binfile_fault _ _ _ _ Hf He), Hneg.
    cbn. auto.
Qed.

End Failures.

(* ================================================================== *)
(** ** Creating the file of the new version *)

Section FileCreation.

Context {cfg : Config} {tbl : BinaryTable}.

Lemma substring_length (s : string) (n : nat) :
  (String.length (substring 0 n s) <= n)%nat.
Proof.
  revert n; induction s as [|c s IH]; intros [|n]; simpl; try lia.
  specialize (IH n). lia.
Qed.

(** The path copied into the response is the path of the file. *)
Lemma binpath_copied name version :
  strncpy (binfile_path name version) CONFIG_PATH_MAX
  = binfile_path name version.
Proof.
  apply strncpy_fits. unfold binfile_path, snprintf.
  pose proof (substring_length
    (BINARY_DIR_PATH ++ "/" ++ name ++ "_" ++ fmt_d version)
    (CONFIG_PATH_MAX - 1)). lia.
Qed.

(** The response of a valid request for a user binary. *)
Lemma response_user pid name version w :
  0 <= pid -> 0 <= version ->
  strncmp "kernel" name BIN_NAME_MAX <> 0 ->
  create_entry_response pid (Some name) version w
  = match fst (prepare_user_binary name version w) with
    | Some r => (set_result r (auto_response w),
                 snd (prepare_user_binary name version w))
    | None => create_new_file name version (auto_response w)
                (snd (prepare_user_binary name version w))
    end.
Proof.
  intros Hp Hv Hk.
  apply Z.ltb_ge in Hp, Hv. apply Z.eqb_neq in Hk.
  cbv beta iota delta [create_entry_response bind gets ret].
  rewrite Hp, Hv, Hk. cbv beta iota delta [orb].
  destruct (prepare_user_binary name version w) as [[r|] w1]; reflexivity.
Qed.

(** A name the table does not know, and can register, gets as far as
    creating the file; the table holds it from then on. *)
Lemma prepare_new_binary name version w :
  binary_manager_get_index_with_name (bin_table w) name < 0 ->
  0 <= fst (binary_manager_register_ubin (bin_table w) name) ->
  prepare_user_binary name version w
  = (None,
     set_bin_table (snd (binary_manager_register_ubin (bin_table w) name)) w).
Proof.
  intros Hi Hr.
  cbv beta iota delta [prepare_user_binary bind gets ret get_index_with_name
    register_ubin].
  assert (E : (binary_manager_get_index_with_name (bin_table w) name >=? 0)
              = false).
  { destruct (Z.geb_spec (binary_manager_get_index_with_name (bin_table w) name)
                         0); [lia | reflexivity]. }
  rewrite E.
  destruct (binary_manager_register_ubin (bin_table w) name) as [r t].
  cbn [fst snd] in *. apply Z.ltb_ge in Hr. rewrite Hr. reflexivity.
Qed.

(** The first [open] fails with another error than [ENOENT]. *)
Lemma create_new_file_fault name version msg e rest w :
  faults w = Some e :: rest -> e <> ENOENT ->
  create_new_file name version msg w
  = (set_result BINMGR_OPERATION_FAIL msg, set_errno e (set_faults rest w)).
Proof.
  intros Hf He. apply Z.eqb_neq in He.
  cbv beta iota zeta delta [create_new_file bind gets ret].
  rewrite (open_creat_fault _ e rest w Hf).
  cbn [errno set_errno Z.gtb Z.compare]. rewrite He. reflexivity.
Qed.

(** The directory is missing and [mkdir] fails. *)
Lemma create_new_file_mkdir_fault name version msg e rest w :
  store w = None -> faults w = None :: Some e :: rest ->
  create_new_file name version msg w
  = (set_result BINMGR_OPERATION_FAIL msg,
     set_errno e (set_faults rest w)).
Proof.
  intros Hs Hf.
  cbv beta iota zeta delta [create_new_file bind gets ret].
  rewrite (open_creat_absent _ w Hs) by now rewrite Hf.
  cbn [errno set_errno Z.gtb Z.compare]. rewrite Z.eqb_refl.
  rewrite (mkdir_fault _ e rest).
  - destruct w. reflexivity.
  - unfold after_call. rewrite Hf. reflexivity.
Qed.

(** The directory is missing, [mkdir] makes it and the second [open]
    fails. *)
Lemma create_new_file_retry_fault name version msg e rest w :
  store w = None -> faults w = None :: None :: Some e :: rest ->
  create_new_file name version msg w
  = (set_result BINMGR_OPERATION_FAIL msg,
     set_errno e (set_faults rest (set_store (Some []) w))).
Proof.
  intros Hs Hf.
  cbv beta iota zeta delta [create_new_file bind gets ret].
  rewrite (open_creat_absent _ w Hs) by now rewrite Hf.
  cbn [errno set_errno Z.gtb Z.compare]. rewrite Z.eqb_refl.
  rewrite mkdir_absent.
  2: exact Hs.
  2: { unfold after_call. cbn. rewrite Hf. reflexivity. }
  cbn [Z.eqb OK].
  rewrite (open_creat_fault _ e rest).
  - destruct w. reflexivity.
  - unfold after_call. cbn. rewrite Hf. reflexivity.
Qed.

(** The directory is missing and every call goes through. *)
Lemma create_new_file_makes_directory name version msg fname w :
  store_child (binfile_path name version) = Some fname ->
  store w = None -> faults w = [] -> 0 < next_fd w ->
  fst (create_new_file name version msg w)
  = {| result := BINMGR_OK; binpath := binfile_path name version |}
  /\ store (snd (create_new_file name version msg w))
     = Some [new_file fname].
Proof.
  intros Hc Hs Hf Hfd.
  cbv beta iota zeta delta [create_new_file bind gets ret].
  rewrite (open_creat_absent _ w Hs) by now rewrite Hf.
  cbn [errno set_errno Z.gtb Z.compare]. rewrite Z.eqb_refl.
  rewrite mkdir_absent.
  2: exact Hs.
  2: { unfold after_call. cbn. rewrite Hf. reflexivity. }
  cbn [Z.eqb OK].
  rewrite (open_creat_new _ fname []); try reflexivity; try exact Hc.
  2: { unfold after_call. cbn. rewrite Hf. reflexivity. }
  cbn [next_fd set_store set_errno after_call set_faults].
  apply Z.gtb_lt in Hfd. rewrite Hfd, binpath_copied.
  split; reflexivity.
Qed.

(** C9: a valid request for a user binary that gets as far as creating
    the file.  When the store directory is missing and the calls go
    through, the directory is made, the file is created in it, and the
    answer is [BINMGR_OK] with the path of the file.  When the first
    [open] fails with another error than [ENOENT], when [mkdir] fails, or
    when the second [open] fails, the answer is [BINMGR_OPERATION_FAIL] and
    no further call is made. *)
Theorem create_entry_creates_file pid name version fname w w1 :
  0 <= pid -> 0 <= version ->
  strncmp "kernel" name BIN_NAME_MAX <> 0 ->
  prepare_user_binary name version w = (None, w1) ->
  store_child (binfile_path name version) = Some fname ->
  let out := binary_manager_create_entry pid (Some name) version w in
  (store w1 = None -> faults w1 = [] -> 0 < next_fd w1 ->
     fst out = BINMGR_OK
     /\ store (snd out) = Some [new_file fname]
     /\ mq (snd out)
        = mq w ++ [(response_q_name pid,
                    {| result := BINMGR_OK;
                       binpath := binfile_path name version |})])
  /\ (forall e rest,
        faults w1 = Some e :: rest -> e <> ENOENT ->
        fst out = BINMGR_OPERATION_FAIL
        /\ store (snd out) = store w1
        /\ faults (snd out) = rest)
  /\ (forall e rest,
        store w1 = None -> faults w1 = None :: Some e :: rest ->
        fst out = BINMGR_OPERATION_FAIL
        /\ store (snd out) = None
        /\ faults (snd out) = rest)
  /\ (forall e rest,
        store w1 = None -> faults w1 = None :: None :: Some e :: rest ->
        fst out = BINMGR_OPERATION_FAIL
        /\ store (snd out) = Some []
        /\ faults (snd out) = rest).
Proof.
  intros Hp Hv Hk Hprep Hc out. subst out.
  pose proof (create_entry_mq pid (Some name) version w) as Hmq.
  rewrite create_entry_unfold in *.
  rewrite (response_user _ _ _ _ Hp Hv Hk), Hprep in *.
  cbn [fst snd] in *.
  split; [| split; [| split]].
  - intros Hs Hf Hfd.
    destruct (create_new_file_makes_directory name version
                (auto_response w) fname w1 Hc Hs Hf Hfd) as [H1 H2].
    rewrite Hmq, H1. cbn [result]. repeat split.
    unfold sent. cbn [store set_mq]. exact H2.
  - intros e rest Hf He.
    rewrite (create_new_file_fault _ _ _ _ _ _ Hf He). cbn. auto.
  - intros e rest Hs Hf.
    rewrite (create_new_file_mkdir_fault _ _ _ _ _ _ Hs Hf). cbn. auto.
  - intros e rest Hs Hf.
    rewrite (create_new_file_retry_fault _ _ _ _ _ _ Hs Hf). cbn. auto.
Qed.

End FileCreation.

(* ================================================================== *)
(** ** Facts about the registry *)

Module RegistryFacts.
Import Registry.

Lemma index_from_range (n : string) (r : registry) :
  forall i, index_from n r i = -1 \/ i <= index_from n r i.
Proof.
  induction r as [|s r IH]; intros i; simpl; [now left |].
  destruct (name s =? n)%string; [right; lia |].
  destruct (IH (i + 1)); [now left | right; lia].
Qed.

(** A name is found exactly when a slot carries it. *)
Lemma index_from_found (n : string) (r : registry) :
  forall i, 0 <= i ->
    (0 <= index_from n r i <-> exists s, In s r /\ name s = n).
Proof.
  induction r as [|s r IH]; intros i Hi; simpl.
  - split; [lia | intros (s & [] & _)].
  - destruct (name s =? n)%string eqn:E.
    + apply String.eqb_eq in E. split; [eauto | lia].
    + apply String.eqb_neq in E. rewrite (IH (i + 1)) by lia.
      split; intros (s' & Hin & Hn); [eauto |].
      destruct Hin as [<- | Hin]; [contradiction | eauto].
Qed.

Lemma get_index_found (r : registry) (n : string) :
  0 <= get_index r n <-> exists s, In s r /\ name s = n.
Proof. apply index_from_found. lia. Qed.

Lemma count_app (n : string) (r r' : registry) :
  count n (r ++ r') = (count n r + count n r')%nat.
Proof. unfold count. now rewrite filter_app, List.length_app. Qed.

Lemma count_zero (n : string) (r : registry) :
  (forall s, In s r -> name s <> n) -> count n r = 0%nat.
Proof.
  unfold count. induction r as [|s r IH]; intros H; simpl; [reflexivity |].
  destruct (name s =? n)%string eqn:E.
  - apply String.eqb_eq in E. exfalso. apply (H s); [now left | exact E].
  - apply IH. intros s' Hin. apply H. now right.
Qed.

Lemma register_extends unset r n :
  extends unset r (snd (register unset r n)).
Proof.
  unfold register. destruct (get_index r n >=? 0) eqn:E; simpl.
  - constructor.
  - constructor. intros s Hin Hn.
    assert (0 <= get_index r n) by (apply get_index_found; eauto).
    apply Z.geb_le in H. congruence.
Qed.

(** After registration the name is in the registry. *)
Lemma register_found unset r n :
  exists s, In s (snd (register unset r n)) /\ name s = n.
Proof.
  unfold register. destruct (get_index r n >=? 0) eqn:E; simpl.
  - apply get_index_found. now apply Z.geb_le.
  - eexists. split; [apply in_or_app; right; now left | reflexivity].
Qed.

Lemma grown_refl unset r : grown unset r r.
Proof.
  split; [exists []; split; [now rewrite app_nil_r | intros s []] |].
  intros n. lia.
Qed.

Lemma grown_step unset r r1 r2 :
  grown unset r r1 -> extends unset r1 r2 -> grown unset r r2.
Proof.
  intros [(added & -> & Hfresh) Hcount] [|n Hn].
  { split; [exists added; auto | exact Hcount]. }
  split.
  - exists (added ++ [{| name := n; kind := User; current_version := unset |}]).
    split; [now rewrite List.app_assoc |].
    intros s Hin. apply in_app_or in Hin as [Hin | [<- | []]]; auto.
  - intros m. rewrite count_app. specialize (Hcount m).
    unfold count at 2. cbn [filter name].
    destruct (n =? m)%string eqn:E; cbn [List.length]; [| lia].
    apply String.eqb_eq in E. subst m.
    rewrite (count_zero n _ Hn) in *. lia.
Qed.

Lemma grown_trans unset r r1 r2 :
  grown unset r r1 -> grown unset r1 r2 -> grown unset r r2.
Proof.
  intros [(a1 & -> & F1) C1] [(a2 & -> & F2) C2]. split.
  - exists (a1 ++ a2). split; [now rewrite List.app_assoc |].
    intros s Hin. apply in_app_or in Hin as [Hin | Hin]; auto.
  - intros n. specialize (C1 n). specialize (C2 n). lia.
Qed.

End RegistryFacts.


(* ================================================================== *)
(** ** The discovery scanner *)

Section Scanner.

Context {cfg : Config} {tbl : BinaryTable}.

Lemma read_header_world p w : snd (binary_manager_read_header p w) = w.
Proof.
  unfold binary_manager_read_header, bind, gets, ret.
  destruct (store w) as [entries|]; [| reflexivity].
  destruct (store_child p) as [n|]; [| reflexivity].
  destruct (find (named n) entries) as [e|]; [| reflexivity].
  destruct (DIRENT_ISFILE (d_type e)); reflexivity.
Qed.

Lemma scan_loop_cons e rest w :
  scan_loop (e :: rest) w = scan_loop rest (scan_entry e w).
Proof.
  cbn [scan_loop]. unfold bind, scan_entry, ret.
  destruct (DIRENT_ISFILE (d_type e)); [| reflexivity].
  pose proof (read_header_world
    (snprintf CONFIG_PATH_MAX (BINARY_DIR_PATH ++ "/" ++ d_name e)) w) as Hw.
  destruct (binary_manager_read_header _ w) as [[h|] w']; simpl in *; subst w'.
  - now destruct (register_ubin (bin_name h) w).
  - reflexivity.
Qed.

Lemma store_scan_entry e w : store (scan_entry e w) = store w.
Proof.
  unfold scan_entry. destruct (DIRENT_ISFILE (d_type e)); [| reflexivity].
  destruct (fst _); [| reflexivity].
  unfold register_ubin. now destruct (binary_manager_register_ubin _ _).
Qed.

Lemma opendir_present entries w :
  store w = Some entries -> hd None (faults w) = None ->
  opendir BINARY_DIR_PATH w = (Some entries, after_call w).
Proof.
  intros Hs Hf.
  cbv beta iota delta [opendir bind pop_fault modify ret gets after_call].
  rewrite Hf. cbn [store set_faults]. rewrite Hs, String.eqb_refl.
  reflexivity.
Qed.

Lemma find_named entries e :
  NoDup (map d_name entries) -> In e entries ->
  find (named (d_name e)) entries = Some e.
Proof.
  induction entries as [|x l IH]; intros Hnd Hin; [contradiction |].
  inversion Hnd as [|? ? Hx Hl]; subst. simpl. unfold named at 1.
  destruct Hin as [-> | Hin].
  - now rewrite String.eqb_refl.
  - destruct (d_name x =? d_name e)%string eqn:E; [| now apply IH].
    apply String.eqb_eq in E. exfalso. apply Hx. rewrite E.
    now apply in_map.
Qed.

(** The header parser is handed the file of the entry. *)
Lemma read_header_entry entries e w :
  store w = Some entries -> scannable entries -> In e entries ->
  DIRENT_ISFILE (d_type e) = true ->
  fst (binary_manager_read_header
         (snprintf CONFIG_PATH_MAX (BINARY_DIR_PATH ++ "/" ++ d_name e)) w)
  = d_header e.
Proof.
  intros Hs [Hnd Hfit] Hin Hfile. destruct (Hfit e Hin) as [Hv Hl].
  unfold binary_manager_read_header, bind, gets, ret.
  rewrite Hs, (store_child_path _ _ Hv Hl), (find_named _ _ Hnd Hin), Hfile.
  reflexivity.
Qed.

Lemma find_same_but_version n entries entries' :
  Forall2 same_but_version entries entries' ->
  match find (named n) entries, find (named n) entries' with
  | Some e, Some e' => same_but_version e e'
  | None, None => True
  | _, _ => False
  end.
Proof.
  induction 1 as [|e e' l l' He Hl IH]; simpl; [exact I |].
  replace (named n e') with (named n e)
    by (unfold named; destruct He as (-> & _); reflexivity).
  destruct (named n e); [exact He | exact IH].
Qed.

Lemma read_header_same_but_versions p w w' :
  same_but_versions (store w) (store w') ->
  option_map bin_name (fst (binary_manager_read_header p w))
  = option_map bin_name (fst (binary_manager_read_header p w')).
Proof.
  unfold same_but_versions, binary_manager_read_header, bind, gets, ret.
  destruct (store w) as [l|], (store w') as [l'|]; try tauto.
  intros H. destruct (store_child p) as [n|]; [| reflexivity].
  pose proof (find_same_but_version n l l' H) as F.
  destruct (find (named n) l) as [e|], (find (named n) l') as [e'|];
    try tauto.
  destruct F as (_ & Ht & Hh). rewrite <- Ht.
  destruct (DIRENT_ISFILE (d_type e)); [exact Hh | reflexivity].
Qed.

Lemma scan_entry_same_but_versions e e' w w' :
  same_but_version e e' -> same_but_versions (store w) (store w') ->
  bin_table w = bin_table w' ->
  bin_table (scan_entry e w) = bin_table (scan_entry e' w').
Proof.
  intros (Hn & Ht & _) Hs Hb. unfold scan_entry. rewrite <- Hn, <- Ht.
  destruct (DIRENT_ISFILE (d_type e)); [| exact Hb].
  pose proof (read_header_same_but_versions
    (snprintf CONFIG_PATH_MAX (BINARY_DIR_PATH ++ "/" ++ d_name e)) w w' Hs)
    as Hr.
  destruct (fst (binary_manager_read_header _ w)) as [h|],
           (fst (binary_manager_read_header _ w')) as [h'|];
    try discriminate; [| exact Hb].
  injection Hr as Hr. unfold register_ubin. rewrite <- Hr, <- Hb.
  now destruct (binary_manager_register_ubin (bin_table w) (bin_name h)).
Qed.

Lemma scan_loop_same_but_versions l l' :
  Forall2 same_but_version l l' ->
  forall w w',
    same_but_versions (store w) (store w') -> bin_table w = bin_table w' ->
    bin_table (snd (scan_loop l w)) = bin_table (snd (scan_loop l' w')).
Proof.
  induction 1 as [|e e' l l' He Hl IH]; intros w w' Hs Hb; [exact Hb |].
  rewrite !scan_loop_cons. apply IH.
  - now rewrite !store_scan_entry.
  - now apply scan_entry_same_but_versions.
Qed.

(** The binary table after a scan does not depend on the versions the
    headers of the files hold: whatever the table functions do, they are
    given the names alone. *)
Lemma scan_ignores_header_versions w w' :
  same_but_versions (store w) (store w') ->
  bin_table w = bin_table w' -> hd None (faults w) = hd None (faults w') ->
  bin_table (snd (binary_manager_scan_ubin w))
  = bin_table (snd (binary_manager_scan_ubin w')).
Proof.
  intros Hs Hb Hf.
  cbv beta iota delta [binary_manager_scan_ubin opendir bind pop_fault
    modify ret gets].
  rewrite <- Hf. destruct (hd None (faults w)); [exact Hb |].
  cbn [store set_faults]. unfold same_but_versions in Hs.
  destruct (store w) as [l|] eqn:E, (store w') as [l'|] eqn:E';
    try contradiction; [| exact Hb].
  rewrite String.eqb_refl.
  apply scan_loop_same_but_versions; cbn [store bin_table set_faults];
    [exact Hs | now rewrite E, E' | exact Hb].
Qed.

End Scanner.

Section ScannerRegistry.

Context {cfg : Config} (unset : Z).

Local Abbreviation reg_world := (@world (Registry.table unset)).

Import Registry RegistryFacts.

Lemma scan_entry_extends e (w : reg_world) :
  extends unset (bin_table w) (bin_table (scan_entry e w)).
Proof.
  unfold scan_entry. destruct (DIRENT_ISFILE (d_type e)); [| constructor].
  destruct (fst _) as [h|]; [| constructor].
  unfold register_ubin. cbn [binary_manager_register_ubin table].
  pose proof (register_extends unset (bin_table w) (bin_name h)) as H.
  destruct (register unset (bin_table w) (bin_name h)). exact H.
Qed.

Lemma scan_loop_grown entries : forall w : reg_world,
  grown unset (bin_table w) (bin_table (snd (scan_loop entries w))).
Proof.
  induction entries as [|e rest IH]; intros w.
  - apply grown_refl.
  - rewrite scan_loop_cons.
    eapply grown_trans; [| apply IH].
    eapply grown_step; [apply grown_refl | apply scan_entry_extends].
Qed.

Lemma scan_ubin_grown (w : reg_world) :
  grown unset (bin_table w) (bin_table (snd (binary_manager_scan_ubin w))).
Proof.
  unfold binary_manager_scan_ubin, bind.
  pose proof (table_opendir BINARY_DIR_PATH w) as Ht.
  destruct (opendir BINARY_DIR_PATH w) as [[entries|] w1]; simpl in Ht.
  - rewrite <- Ht. apply scan_loop_grown.
  - simpl. rewrite Ht. apply grown_refl.
Qed.

Lemma grown_In r r' s : grown unset r r' -> In s r -> In s r'.
Proof. intros [(a & -> & _) _] H. apply in_or_app. now left. Qed.

(** The loop registers the name in the header of every file it parses. *)
Lemma scan_loop_registers entries e h : forall rest (w : reg_world),
  store w = Some entries -> scannable entries ->
  (forall x, In x rest -> In x entries) ->
  In e rest -> DIRENT_ISFILE (d_type e) = true -> d_header e = Some h ->
  exists s, In s (bin_table (snd (scan_loop rest w))) /\ name s = bin_name h.
Proof.
  induction rest as [|x rest IH]; intros w Hs Hsc Hsub Hin Hfile Hh;
    [contradiction |].
  rewrite scan_loop_cons. destruct Hin as [-> | Hin].
  - assert (Hreg : exists s, In s (bin_table (scan_entry e w))
                             /\ name s = bin_name h).
    { unfold scan_entry.
      rewrite Hfile, (read_header_entry entries e w Hs Hsc), Hh;
        [| apply Hsub; now left | exact Hfile].
      unfold register_ubin. cbn [binary_manager_register_ubin table].
      pose proof (register_found unset (bin_table w) (bin_name h)) as H.
      destruct (register unset (bin_table w) (bin_name h)). exact H. }
    destruct Hreg as (s & Hs1 & Hs2). exists s. split; [| exact Hs2].
    eapply grown_In; [apply scan_loop_grown | exact Hs1].
  - apply IH; auto.
    + now rewrite store_scan_entry.
    + intros y Hy. apply Hsub. now right.
Qed.

Lemma scan_ubin_registers entries e h (w : reg_world) :
  store w = Some entries -> hd None (faults w) = None ->
  scannable entries -> In e entries ->
  DIRENT_ISFILE (d_type e) = true -> d_header e = Some h ->
  exists s, In s (bin_table (snd (binary_manager_scan_ubin w)))
            /\ name s = bin_name h.
Proof.
  intros Hs Hf Hsc Hin Hfile Hh.
  unfold binary_manager_scan_ubin, bind.
  rewrite (opendir_present entries w Hs Hf).
  apply (scan_loop_registers entries e h); auto.
Qed.

Lemma count_found n (r : registry) :
  (exists s, In s r /\ name s = n) -> (1 <= count n r)%nat.
Proof.
  intros (s & Hin & Hn). unfold count.
  induction r as [|x r IH]; [contradiction |]. simpl.
  destruct Hin as [-> | Hin].
  - rewrite Hn, String.eqb_refl. simpl. lia.
  - specialize (IH Hin). destruct (name x =? n)%string; simpl; lia.
Qed.

Lemma grown_nth_error r r' i s :
  grown unset r r' -> nth_error r i = Some s -> nth_error r' i = Some s.
Proof.
  intros [(a & -> & _) _] H. rewrite nth_error_app1; [exact H |].
  apply nth_error_Some. congruence.
Qed.

(** C6 (amended): the scanner offers the name in the header of every
    regular file it parses to the registry, and the name alone.  A name that
    no slot carried is afterwards carried by a slot of kind [User], whose
    version is the one registration by name gives, whatever version the
    header holds. *)
Theorem scan_registers_by_name entries e h (w : reg_world) :
  store w = Some entries -> hd None (faults w) = None ->
  scannable entries ->
  In e entries -> DIRENT_ISFILE (d_type e) = true -> d_header e = Some h ->
  (forall s, In s (bin_table w) -> name s <> bin_name h) ->
  let registry' := bin_table (snd (binary_manager_scan_ubin w)) in
  (exists s, In s registry' /\ name s = bin_name h)
  /\ (forall s, In s registry' -> name s = bin_name h ->
        kind s = User /\ current_version s = unset).
Proof.
  intros Hs Hf Hsc Hin Hfile Hh Hnew registry'. split.
  - now apply (scan_ubin_registers entries e h).
  - intros s Hs' Hn. subst registry'.
    destruct (scan_ubin_grown w) as [(added & Heq & Hfresh) _].
    rewrite Heq in Hs'. apply in_app_or in Hs' as [Hold | Hadd].
    + exfalso. now apply (Hnew s).
    + now apply Hfresh.
Qed.

(** C7: a scan, and a second scan after it, leave every slot of the
    registry where it was and as it was; a name that was there at most once
    is there at most once afterwards; and the name in the header of a file
    the scan parses is there. *)
Theorem scan_only_grows_registry (w : reg_world) :
  let once := snd (binary_manager_scan_ubin w) in
  let twice := snd (binary_manager_scan_ubin once) in
  (forall i s, nth_error (bin_table w) i = Some s ->
     nth_error (bin_table once) i = Some s
     /\ nth_error (bin_table twice) i = Some s)
  /\ (forall n, (count n (bin_table w) <= 1)%nat ->
        (count n (bin_table once) <= 1)%nat
        /\ (count n (bin_table twice) <= 1)%nat)
  /\ (forall entries e h,
        store w = Some entries -> hd None (faults w) = None ->
        scannable entries -> In e entries ->
        DIRENT_ISFILE (d_type e) = true -> d_header e = Some h ->
        (1 <= count (bin_name h) (bin_table once))%nat).
Proof.
  intros once twice.
  pose proof (scan_ubin_grown w) as G1.
  pose proof (scan_ubin_grown once) as G2.
  fold once in G1. fold twice in G2.
  split; [| split].
  - intros i s H. split.
    + now apply (grown_nth_error _ _ _ _ G1).
    + apply (grown_nth_error _ _ _ _ G2). now apply (grown_nth_error _ _ _ _ G1).
  - intros n H. destruct G1 as [_ C1]. destruct G2 as [_ C2].
    specialize (C1 n). specialize (C2 n). lia.
  - intros entries e h Hs Hf Hsc Hin Hfile Hh. apply count_found.
    now apply (scan_ubin_registers entries e h).
Qed.

End ScannerRegistry.


(* ================================================================== *)
(** ** The model run on the board *)

Section Board.

#[local] Existing Instance board_config.

(** C1, as stated, fails: for the slot [foo] with version 1, after a run of
    the collector that reports [BINMGR_OK], no file whose name starts with
    [foo_] is left in the store, where the claim has exactly one,
    [foo_1]. *)
Lemma clear_binfile_leaves_no_running_file :
  fst (binary_manager_clear_binfile 0 staged_world) = BINMGR_OK
  /\ exists remaining,
       store (snd (binary_manager_clear_binfile 0 staged_world))
       = Some remaining
       /\ filter (fun e => String.prefix "foo_" (d_name e)) remaining = [].
Proof.
  split; [reflexivity |].
  exists [file "foobar_1" None]. split; reflexivity.
Qed.

(** The collector on the store of [foo_world]: [foo_2] goes, [foo_1] and
    [foobar_1] stay. *)
Lemma clear_binfile_removes_other_versions_witness :
  fst (binary_manager_clear_binfile 0 foo_world) = BINMGR_OK
  /\ exists remaining,
       store (snd (binary_manager_clear_binfile 0 foo_world)) = Some remaining
       /\ ~ In (file "foo_2" None) remaining
       /\ In (file "foo_1" None) remaining
       /\ In (file "foobar_1" None) remaining.
Proof.
  destruct (clear_binfile_removes_other_versions 0
              [file "foo_1" None; file "foo_2" None; file "foobar_1" None;
               file "foo_3" None] foo_world)
    as (Hret & _ & remaining & Hstore & _ & Hgone & Hrun & Hother).
  - reflexivity.
  - reflexivity.
  - reflexivity.
  - simpl. lia.
  - intros e [<- | [<- | [<- | [<- | []]]]]; (split; [reflexivity | simpl; lia]).
  - split; [exact Hret |]. exists remaining.
    split; [exact Hstore |]. split; [| split].
    + apply Hgone; [simpl; auto | reflexivity | reflexivity | reflexivity].
    + apply Hrun; [simpl; auto | reflexivity].
    + apply Hother; [simpl; auto | reflexivity].
Defined.

(** C3, as stated, fails: a request with an empty name is not answered
    [BINMGR_INVALID_PARAM]; the name is registered and a file is created. *)
Lemma create_entry_accepts_empty_name :
  fst (binary_manager_create_entry 5 (Some EmptyString) 0 fresh_world)
  <> BINMGR_INVALID_PARAM
  /\ store (snd (binary_manager_create_entry 5 (Some EmptyString) 0 fresh_world))
     = Some [new_file "_0"]
  /\ bin_table
       (snd (binary_manager_create_entry 5 (Some EmptyString) 0 fresh_world))
     = [{| Registry.name := EmptyString; Registry.kind := Registry.User;
           Registry.current_version := 0 |}].
Proof. repeat split. discriminate. Qed.

(** A request with pid -1. *)
Lemma create_entry_invalid_param_witness :
  fst (binary_manager_create_entry (-1) (Some "app"%string) 1 foo_world)
  = BINMGR_INVALID_PARAM
  /\ store (snd (binary_manager_create_entry (-1) (Some "app"%string) 1
                   foo_world))
     = store foo_world.
Proof.
  destruct (create_entry_invalid_param (-1) (Some "app"%string) 1 foo_world)
    as (H1 & _ & H3 & _).
  - left. lia.
  - split; assumption.
Defined.

(** A kernel request on a board with two partitions, the first in use. *)
Lemma create_entry_kernel_witness :
  binary_manager_create_entry 5 (Some "kernel"%string) 1
    (board_world 0 None [] (two_kernels 0))
  = (BINMGR_OK,
     sent 5 {| result := BINMGR_OK; binpath := "/dev/mtdblock5" |}
       (board_world 0 None [] (two_kernels 0))).
Proof.
  destruct (create_entry_kernel 5 1 (board_world 0 None [] (two_kernels 0)))
    as (H & _); [lia | lia |].
  apply H; reflexivity.
Defined.

(** Version 1 of [foo] requested twice while [foo] runs version 1. *)
Lemma create_entry_already_updated_witness :
  fst (binary_manager_create_entry 5 (Some "foo"%string) 1 foo_world)
  = BINMGR_ALREADY_UPDATED
  /\ fst (binary_manager_create_entry 5 (Some "foo"%string) 1
            (snd (binary_manager_create_entry 5 (Some "foo"%string) 1
                    foo_world)))
     = BINMGR_ALREADY_UPDATED.
Proof.
  destruct (create_entry_already_updated 5 "foo" 1 foo_world)
    as (H1 & _ & _ & H4 & _).
  - lia.
  - lia.
  - discriminate.
  - vm_compute. discriminate.
  - reflexivity.
  - split; assumption.
Defined.

(** C6, as stated, fails: the file [app_7] parses to a header that names
    [app] at version 7, [app] is not registered, and after the scan no slot
    of that name has version 7. *)
Lemma scan_does_not_register_header_version :
  ~ exists s,
      In s (bin_table (snd (binary_manager_scan_ubin app_world)))
      /\ Registry.name s = "app"%string
      /\ Registry.kind s = Registry.User
      /\ Registry.current_version s = 7.
Proof.
  intros (s & Hin & _ & _ & Hv).
  destruct Hin as [<- | []]. discriminate Hv.
Qed.

(** The scan of [app_world]: [app] is registered, with the version
    registration by name gives. *)
Lemma scan_registers_by_name_witness :
  (exists s,
     In s (bin_table (snd (binary_manager_scan_ubin app_world)))
     /\ Registry.name s = "app"%string)
  /\ (forall s,
        In s (bin_table (snd (binary_manager_scan_ubin app_world))) ->
        Registry.name s = "app"%string ->
        Registry.kind s = Registry.User /\ Registry.current_version s = 0).
Proof.
  refine (scan_registers_by_name 0 [file "app_7" (hdr "app" 7)]
            (file "app_7" (hdr "app" 7))
            {| bin_name := "app"; bin_ver := 7 |} app_world
            eq_refl eq_refl _ _ eq_refl eq_refl _).
  - split.
    + constructor; [simpl; tauto | constructor].
    + intros e [<- | []]. split; [reflexivity | simpl; lia].
  - simpl. auto.
  - intros s [].
Defined.

(** The scan of a store with [a_1] and [a_2] registers [a] once. *)
Lemma scan_only_grows_registry_witness :
  Registry.count "a"
    (bin_table (snd (binary_manager_scan_ubin two_versions_world)))
  = 1%nat.
Proof.
  destruct (scan_only_grows_registry 0 two_versions_world) as (_ & H2 & H3).
  specialize (H2 "a"%string). specialize (H3
    [file "a_1" (hdr "a" 1); file "a_2" (hdr "a" 2)]
    (file "a_2" (hdr "a" 2)) {| bin_name := "a"; bin_ver := 2 |}).
  cbv zeta in H2, H3.
  assert (Hsc : scannable [file "a_1" (hdr "a" 1); file "a_2" (hdr "a" 2)]).
  { split.
    - constructor; [simpl; intros [H | []]; discriminate H |].
      constructor; [simpl; tauto | constructor].
    - intros e [<- | [<- | []]]; (split; [reflexivity | simpl; lia]). }
  specialize (H3 eq_refl eq_refl Hsc (or_intror (or_introl eq_refl))
                eq_refl eq_refl).
  assert (H0 : (Registry.count "a" (bin_table two_versions_world) <= 1)%nat)
    by (vm_compute; lia).
  destruct (H2 H0) as [H2' _]. cbn [bin_name] in H3. lia.
Defined.

(** Version 2 of [foo] requested while the store cannot be opened. *)
Lemma clear_binfile_open_failure_witness :
  fst (binary_manager_create_entry 5 (Some "foo"%string) 2 locked_world)
  = BINMGR_OPERATION_FAIL
  /\ store (snd (binary_manager_create_entry 5 (Some "foo"%string) 2
                   locked_world))
     = store foo_world.
Proof.
  destruct (clear_binfile_open_failure 0 locked_world) as (_ & _ & H).
  destruct (H 5 "foo"%string 2
              [file "foo_1" None; file "foo_2" None; file "foobar_1" None;
               file "foo_3" None] 13 [])
    as (H1 & H2 & _).
  - lia.
  - lia.
  - discriminate.
  - reflexivity.
  - lia.
  - discriminate.
  - reflexivity.
  - reflexivity.
  - discriminate.
  - reflexivity.
  - split; assumption.
Defined.

(** Version 1 of the new binary [app] requested on a fresh board. *)
Lemma create_entry_creates_file_witness :
  fst (binary_manager_create_entry 5 (Some "app"%string) 1 fresh_world)
  = BINMGR_OK
  /\ store (snd (binary_manager_create_entry 5 (Some "app"%string) 1
                   fresh_world))
     = Some [new_file "app_1"]
  /\ mq (snd (binary_manager_create_entry 5 (Some "app"%string) 1
                fresh_world))
     = [("binmgr_res5"%string,
         {| result := BINMGR_OK; binpath := "/mnt/bins/app_1" |})].
Proof.
  destruct (create_entry_creates_file 5 "app" 1 "app_1" fresh_world
              (snd (prepare_user_binary "app" 1 fresh_world)))
    as (H & _).
  - lia.
  - lia.
  - discriminate.
  - reflexivity.
  - reflexivity.
  - apply H; [reflexivity | reflexivity | reflexivity].
Defined.

(** The collector keeps a file whose name extends the name of the running
    file, and a file whose path is longer than the [NAME_MAX] characters the
    path is written to. *)
Example clear_binfile_keeps_extended_and_long_names :
  option_map (map d_name)
    (store (snd (binary_manager_clear_binfile 0
       (board_world 0
          (Some [file "foo_1" None; file "foo_10" None; file "foo_2" None;
                 file "foo_23456789012345678901" None])
          [foo_slot] one_kernel))))
  = Some ["foo_1"; "foo_10"; "foo_23456789012345678901"]%string.
Proof. reflexivity. Qed.

(** On a fresh board where the second [open] fails, the directory is made,
    no file is created, and no further call follows. *)
Example create_entry_second_open_fails :
  let out := binary_manager_create_entry 5 (Some "app"%string) 1
               (set_faults [None; None; Some 28; None] fresh_world) in
  fst out = BINMGR_OPERATION_FAIL
  /\ store (snd out) = Some []
  /\ faults (snd out) = [None].
Proof. repeat split. Qed.

(** A second version requested for a binary that was registered and never
    loaded: the collector removes the file of the first request. *)
Example create_entry_clears_staged_file :
  let first := binary_manager_create_entry 5 (Some "app"%string) 1
                 fresh_world in
  let second := binary_manager_create_entry 5 (Some "app"%string) 2
                  (snd first) in
  option_map (map d_name) (store (snd first)) = Some ["app_1"%string]
  /\ fst second = BINMGR_OK
  /\ option_map (map d_name) (store (snd second)) = Some ["app_2"%string].
Proof. repeat split. Qed.

End Board.


(* ================================================================== *)
(** ** What the collector never removes *)

Section CollectorSafety.

Context {cfg : Config} {tbl : BinaryTable}.

Lemma cstring_substring (s : string) (n : nat) :
  cstring s = true -> cstring (substring 0 n s) = true.
Proof.
  revert n; induction s as [|c s IH]; intros [|n] H; simpl in *; auto.
  apply andb_true_iff in H as [Hc Hs]. rewrite Hc. simpl. now apply IH.
Qed.

Lemma prefix_substring (s : string) (n : nat) :
  String.prefix (substring 0 n s) s = true.
Proof.
  revert n; induction s as [|c s IH]; intros [|n]; try reflexivity.
  cbn [substring]. rewrite prefix_cons, Ascii.eqb_refl. apply IH.
Qed.

Lemma prefix_trans (a b c : string) :
  String.prefix a b = true -> String.prefix b c = true ->
  String.prefix a c = true.
Proof.
  revert b c; induction a as [|x a IH]; intros b c Hab Hbc;
    [apply prefix_nil |].
  destruct b as [|y b]; [discriminate |].
  destruct c as [|z c]; [discriminate |].
  rewrite prefix_cons in *.
  apply andb_true_iff in Hab as [H1 H2]. apply andb_true_iff in Hbc as [H3 H4].
  apply Ascii.eqb_eq in H1, H3. subst. rewrite Ascii.eqb_refl. simpl.
  now apply (IH b c).
Qed.

(** A prefix of a string is a prefix of every cut of the string that is at
    least as long. *)
Lemma prefix_of_substring (a s : string) (n : nat) :
  String.prefix a s = true -> (String.length a <= n)%nat ->
  String.prefix a (substring 0 n s) = true.
Proof.
  revert s n; induction a as [|x a IH]; intros s n H Hn; [apply prefix_nil |].
  destruct s as [|y s]; [discriminate |].
  destruct n as [|n]; [simpl in Hn; lia |].
  cbn [substring]. rewrite prefix_cons in *.
  apply andb_true_iff in H as [H1 H2]. rewrite H1. simpl.
  apply IH; [exact H2 | simpl in Hn; lia].
Qed.

Lemma strip_prefix_substring (p x : string) :
  forall k n,
    strip_prefix p (substring 0 k (p ++ x)) = Some n ->
    n = substring 0 (k - String.length p) x.
Proof.
  induction p as [|c p IH]; intros k n H.
  - simpl in *. rewrite Nat.sub_0_r. congruence.
  - destruct k as [|k]; [discriminate |].
    cbn [append substring strip_prefix] in H.
    rewrite Ascii.eqb_refl in H. now apply IH.
Qed.

(** The entry a path of the collector names is a cut of the entry the path
    was written for. *)
Lemma unlink_path_child (s : dirent) (n : string) :
  store_child (unlink_path s) = Some n ->
  n = substring 0 (NAME_MAX - 1 - (String.length BINARY_DIR_PATH + 1))
        (d_name s).
Proof.
  unfold store_child, unlink_path, snprintf.
  rewrite <- LibCFacts.app_assoc.
  destruct (strip_prefix _ _) as [m|] eqn:E; [| discriminate].
  apply strip_prefix_substring in E.
  destruct (valid_name m); [| discriminate].
  intros H. injection H as <-. rewrite E, length_app. reflexivity.
Qed.

(** [unlink] takes nothing but the regular file its path names. *)
Lemma unlink_spares path cur w :
  store w = Some cur ->
  exists cur',
    store (snd (unlink path w)) = Some cur'
    /\ (forall e, In e cur' -> In e cur)
    /\ (forall e, In e cur ->
          DIRENT_ISFILE (d_type e) = false
          \/ store_child path <> Some (d_name e) ->
          In e cur').
Proof.
  intros Hs. cbv beta iota delta [unlink bind pop_fault gets modify ret].
  destruct (hd None (faults w)); cbn [store set_faults set_errno snd].
  { exists cur. auto. }
  rewrite Hs. destruct (store_child path) as [n|].
  2: { exists cur. cbn [snd store set_errno set_faults]. auto. }
  destruct (existsb _ cur).
  2: { exists cur. cbn [snd store set_errno set_faults]. auto. }
  cbn [snd store set_errno set_store set_faults].
  eexists. split; [reflexivity |]. split.
  - intros e He. apply filter_In in He. tauto.
  - intros e He Hcond. apply filter_In. split; [exact He |].
    destruct Hcond as [Hf | Hn]; [now rewrite Hf, andb_false_r |].
    unfold named. destruct (d_name e =? n)%string eqn:E; [| reflexivity].
    apply String.eqb_eq in E. subst n. contradiction.
Qed.

(** The loop takes nothing but regular files named by the paths written for
    the entries that pass its test. *)
Lemma clear_loop_spares (N R : string) (dirp : list dirent) :
  forall w cur,
    store w = Some cur ->
    exists cur',
      store (snd (clear_loop N R dirp w)) = Some cur'
      /\ (forall e, In e cur' -> In e cur)
      /\ (forall e, In e cur ->
            DIRENT_ISFILE (d_type e) = false
            \/ (forall s, In s dirp -> not_running N R s = true ->
                  store_child (unlink_path s) <> Some (d_name e)) ->
            In e cur').
Proof.
  induction dirp as [|s rest IH]; intros w cur Hs.
  - exists cur. simpl. auto.
  - rewrite clear_loop_cons. destruct (not_running N R s) eqn:E.
    + destruct (unlink_spares (unlink_path s) cur w Hs)
        as (cur1 & Hs1 & Hin1 & Hkeep1).
      destruct (IH _ cur1 Hs1) as (cur2 & Hs2 & Hin2 & Hkeep2).
      exists cur2. split; [exact Hs2 |]. split; [auto |].
      intros e He Hcond. apply Hkeep2.
      * apply Hkeep1; [exact He |].
        destruct Hcond as [Hf | Hp]; [now left | right].
        apply (Hp s); [now left | exact E].
      * destruct Hcond as [Hf | Hp]; [now left | right].
        intros s' Hs' E'. apply Hp; [now right | exact E'].
    + destruct (IH w cur Hs) as (cur2 & Hs2 & Hin2 & Hkeep2).
      exists cur2. split; [exact Hs2 |]. split; [auto |].
      intros e He Hcond. apply Hkeep2; [exact He |].
      destruct Hcond as [Hf | Hp]; [now left | right].
      intros s' Hs' E'. apply Hp; [now right | exact E'].
Qed.

(** The store the collector leaves, whatever the system calls do. *)
Lemma clear_binfile_spares bin_idx entries w :
  store w = Some entries ->
  exists remaining,
    store (snd (binary_manager_clear_binfile bin_idx w)) = Some remaining
    /\ (forall e, In e remaining -> In e entries)
    /\ (forall e, In e entries ->
          DIRENT_ISFILE (d_type e) = false
          \/ (forall s, not_running (BIN_NAME (bin_table w) bin_idx)
                          (running_file bin_idx w) s = true ->
                store_child (unlink_path s) <> Some (d_name e)) ->
          In e remaining).
Proof.
  intros Hs.
  cbv beta iota zeta delta [binary_manager_clear_binfile bind gets ret].
  pose proof (store_opendir BINARY_DIR_PATH w) as Ho.
  destruct (opendir BINARY_DIR_PATH w) as [[dirp|] w1]; cbn [snd] in *.
  - rewrite <- Ho in Hs.
    destruct (clear_loop_spares (BIN_NAME (bin_table w) bin_idx)
                (running_file bin_idx w) dirp w1 entries Hs)
      as (cur & H1 & H2 & H3).
    unfold running_file in *.
    destruct (clear_loop _ _ dirp w1) as [u w2]. cbn [snd] in *.
    exists cur. split; [exact H1 |]. split; [exact H2 |].
    intros e He Hcond. apply H3; [exact He |].
    destruct Hcond as [Hf | Hp]; [now left | right]. intros s _. apply Hp.
  - exists entries. rewrite <- Ho in Hs.
    destruct (negb (errno w1 =? ENOENT)); cbn [snd]; auto.
Qed.

(** In any world, whatever the system calls do and however long the names
    are, the collector adds nothing to the store, leaves every entry that is
    not a regular file, and leaves every entry whose name starts with the
    name of the running file; the binary table and the response queues are
    as before. *)
Theorem clear_binfile_spares_running_file bin_idx entries w :
  store w = Some entries ->
  cstring (BIN_NAME (bin_table w) bin_idx) = true ->
  let out := binary_manager_clear_binfile bin_idx w in
  bin_table (snd out) = bin_table w
  /\ mq (snd out) = mq w
  /\ exists remaining,
       store (snd out) = Some remaining
       /\ (forall e, In e remaining -> In e entries)
       /\ (forall e, In e entries ->
             DIRENT_ISFILE (d_type e) = false -> In e remaining)
       /\ (forall e, In e entries ->
             String.prefix (running_file bin_idx w) (d_name e) = true ->
             In e remaining).
Proof.
  intros Hs HN out.
  split; [apply table_clear_binfile |]. split; [apply mq_clear_binfile |].
  destruct (clear_binfile_spares bin_idx entries w Hs)
    as (remaining & H1 & H2 & H3).
  exists remaining. split; [exact H1 |]. split; [exact H2 |]. split.
  - intros e He Hf. apply H3; auto.
  - intros e He Hpre. apply H3; [exact He | right].
    intros s Hstale Hchild.
    assert (HR : cstring (running_file bin_idx w) = true).
    { unfold running_file, snprintf. apply cstring_substring.
      now rewrite !cstring_app, HN, cstring_fmt_d. }
    apply unlink_path_child in Hchild.
    unfold not_running in Hstale. rewrite (strncmp_prefix _ _ HR) in Hstale.
    assert (String.prefix (running_file bin_idx w) (d_name s) = true).
    { eapply prefix_trans; [exact Hpre |].
      rewrite Hchild. apply prefix_substring. }
    rewrite H in Hstale. now rewrite andb_false_r in Hstale.
Qed.

(** When the path of the shortest name the loop looks for fits the buffer
    the path is written to, the collector leaves every entry whose name
    does not start with the name of the binary and an underscore, whatever
    the system calls do and however long the other names are. *)
Theorem clear_binfile_spares_other_binaries bin_idx entries w :
  let N := BIN_NAME (bin_table w) bin_idx in
  store w = Some entries ->
  cstring N = true ->
  (String.length BINARY_DIR_PATH + 1 + String.length (N ++ "_") < NAME_MAX)%nat ->
  exists remaining,
    store (snd (binary_manager_clear_binfile bin_idx w)) = Some remaining
    /\ forall e, In e entries ->
         String.prefix (N ++ "_") (d_name e) = false -> In e remaining.
Proof.
  intros N Hs HN Hfit.
  destruct (clear_binfile_spares bin_idx entries w Hs)
    as (remaining & H1 & _ & H3).
  exists remaining. split; [exact H1 |].
  intros e He Hpre. apply H3; [exact He | right].
  intros s Hstale Hchild. apply unlink_path_child in Hchild.
  fold N in Hstale. unfold not_running in Hstale.
  rewrite (strncmp_prefix _ _ HN) in Hstale.
  assert (Hs' : String.prefix (N ++ "_") (d_name s) = true).
  { rewrite <- prefix_underscore.
    destruct (DIRENT_ISFILE (d_type s)); [| discriminate].
    destruct (String.prefix N (d_name s)); [| discriminate].
    destruct (char_at (d_name s) (strlen N)) as [c|]; [| discriminate].
    destruct (c =? "_")%char; [reflexivity | discriminate]. }
  rewrite Hchild, prefix_of_substring in Hpre;
    [discriminate | exact Hs' | lia].
Qed.

Lemma clear_loop_all_fail (N R : string) (dirp : list dirent) :
  forall w,
    Forall (fun f => f <> None) (faults w) ->
    (List.length dirp <= List.length (faults w))%nat ->
    store (snd (clear_loop N R dirp w)) = store w.
Proof.
  induction dirp as [|s rest IH]; intros w Hall Hlen; [reflexivity |].
  rewrite clear_loop_cons. destruct (not_running N R s).
  - destruct (faults w) as [|f fs] eqn:Ef; [simpl in Hlen; lia |].
    inversion Hall as [|? ? Hf Hfs]; subst.
    destruct f as [e|]; [| contradiction].
    assert (Hu : snd (unlink (unlink_path s) w)
                 = set_errno e (set_faults fs w)).
    { cbv beta iota delta [unlink bind pop_fault modify ret].
      rewrite Ef. reflexivity. }
    unfold unlink_path in Hu. rewrite Hu, IH; [reflexivity | exact Hfs |].
    cbn [faults set_errno set_faults]. simpl in Hlen. lia.
  - apply IH; [exact Hall | simpl in Hlen; lia].
Qed.

(** The collector reports [BINMGR_OK] when it could open the directory, also
    when every [unlink] it makes fails: the store is then as before. *)
Theorem clear_binfile_ignores_unlink_failures bin_idx entries fs w :
  store w = Some entries ->
  faults w = None :: fs ->
  Forall (fun f => f <> None) fs ->
  (List.length entries <= List.length fs)%nat ->
  fst (binary_manager_clear_binfile bin_idx w) = BINMGR_OK
  /\ store (snd (binary_manager_clear_binfile bin_idx w)) = Some entries.
Proof.
  intros Hs Hf Hall Hlen.
  cbv beta iota zeta delta [binary_manager_clear_binfile bind gets ret].
  rewrite (opendir_present entries w Hs) by now rewrite Hf.
  pose proof (clear_loop_all_fail (BIN_NAME (bin_table w) bin_idx)
    (snprintf NAME_MAX (BIN_NAME (bin_table w) bin_idx ++ "_"
                        ++ fmt_d (BIN_VER (bin_table w) bin_idx)))
    entries (after_call w)) as H.
  destruct (clear_loop _ _ entries (after_call w)) as [u w1].
  cbn [fst snd] in *. split; [reflexivity |].
  rewrite H; unfold after_call; cbn [faults store set_faults];
    rewrite ?Hf; auto.
Qed.

(** Running the collector again changes nothing: in a store it can open,
    with removals that go through and paths that fit, the store after two
    runs is the store after one. *)
Theorem clear_binfile_twice bin_idx entries w :
  store w = Some entries -> faults w = [] ->
  (forall e, In e entries ->
     valid_name (d_name e) = true
     /\ (String.length BINARY_DIR_PATH + 1 + String.length (d_name e)
         < NAME_MAX)%nat) ->
  let once := snd (binary_manager_clear_binfile bin_idx w) in
  let twice := snd (binary_manager_clear_binfile bin_idx once) in
  fst (binary_manager_clear_binfile bin_idx once) = BINMGR_OK
  /\ store twice = store once.
Proof.
  intros Hs Hf Hfit once twice.
  assert (Hpath : forall l, (forall e, In e l -> In e entries) ->
            forall s, In s l ->
              store_child (snprintf NAME_MAX
                             (BINARY_DIR_PATH ++ "/" ++ d_name s))
              = Some (d_name s)).
  { intros l Hl s Hin. destruct (Hfit s (Hl s Hin)).
    now apply store_child_path. }
  destruct (clear_binfile_store bin_idx entries w Hf Hs) as (_ & S1 & F1).
  { intros s Hin _. now apply (Hpath entries). }
  fold once in S1, F1.
  pose proof (table_clear_binfile bin_idx w) as Ht. fold once in Ht.
  destruct (clear_binfile_store bin_idx _ once F1 S1) as (R2 & S2 & _).
  { intros s Hin _. apply (Hpath _ (fun e He => proj1 (proj1
      (filter_In _ _ _) He)) s Hin). }
  fold twice in S2. split; [exact R2 |].
  rewrite S2, S1, Ht. f_equal. rewrite filter_filter.
  apply filter_ext. intros e. now rewrite andb_diag.
Qed.

End CollectorSafety.


(* ================================================================== *)
(** ** Names of files and queues *)

Section Names.

Context {cfg : Config}.

Lemma fmt_d_inj (a b : Z) : fmt_d a = fmt_d b -> a = b.
Proof.
  unfold fmt_d. intros H. apply DecimalZ.to_int_inj.
  assert (Hnil : forall z, Z.to_int z <> Decimal.Pos Decimal.Nil
                           /\ Z.to_int z <> Decimal.Neg Decimal.Nil).
  { intros [|p|p]; simpl; split; intros E; try discriminate;
      injection E as E; now apply Unsigned.to_uint_nonnil in E. }
  destruct (Hnil a) as [Ha1 Ha2]. destruct (Hnil b) as [Hb1 Hb2].
  pose proof (NilZero.isi _ Ha1 Ha2) as Ia.
  pose proof (NilZero.isi _ Hb1 Hb2) as Ib.
  rewrite H in Ia. congruence.
Qed.

Lemma app_inv_head (p a b : string) : (p ++ a = p ++ b)%string -> a = b.
Proof.
  induction p as [|c p IH]; simpl; intros H; [exact H |].
  injection H as H. now apply IH.
Qed.

(** Two requesters have two queues: the names of the response queues of
    different pids differ, as long as both fit [BIN_PRIVMQ_LEN]. *)
Theorem response_q_name_injective (pid pid' : Z) :
  (String.length (BINMGR_RESPONSE_MQ_PREFIX ++ fmt_d pid) < BIN_PRIVMQ_LEN)%nat ->
  (String.length (BINMGR_RESPONSE_MQ_PREFIX ++ fmt_d pid') < BIN_PRIVMQ_LEN)%nat ->
  pid <> pid' -> response_q_name pid <> response_q_name pid'.
Proof.
  intros H H' Hne E. apply Hne. unfold response_q_name in E.
  rewrite !snprintf_fits in E by assumption.
  apply fmt_d_inj. now apply app_inv_head in E.
Qed.

(** Two versions of a binary have two files: the paths written for
    different versions differ, as long as both fit [CONFIG_PATH_MAX]. *)
Theorem binfile_path_injective (name : string) (version version' : Z) :
  (String.length (BINARY_DIR_PATH ++ "/" ++ name ++ "_" ++ fmt_d version)
   < CONFIG_PATH_MAX)%nat ->
  (String.length (BINARY_DIR_PATH ++ "/" ++ name ++ "_" ++ fmt_d version')
   < CONFIG_PATH_MAX)%nat ->
  version <> version' ->
  binfile_path name version <> binfile_path name version'.
Proof.
  intros H H' Hne E. apply Hne. unfold binfile_path in E.
  rewrite !snprintf_fits in E by assumption.
  apply fmt_d_inj.
  now repeat apply app_inv_head in E.
Qed.

(** [strncmp] over more characters than the first string has tells whether
    two C strings are equal. *)
Lemma strncmp_equal (a : string) :
  forall b n,
    cstring a = true -> cstring b = true -> (String.length a < n)%nat ->
    (strncmp a b n = 0 <-> a = b).
Proof.
  induction a as [|c a IH]; intros b n Ha Hb Hn;
    (destruct n as [|n]; [simpl in Hn; lia |]).
  - destruct b as [|d b]; simpl; [tauto |].
    simpl in Hb. apply andb_true_iff in Hb as [Hd _].
    apply negb_true_iff in Hd. pose proof (code_nonzero d Hd).
    split; [lia | discriminate].
  - simpl in Ha. apply andb_true_iff in Ha as [Hc Ha].
    apply negb_true_iff in Hc.
    destruct b as [|d b]; simpl.
    + pose proof (code_nonzero c Hc). split; [lia | discriminate].
    + simpl in Hb. apply andb_true_iff in Hb as [_ Hb].
      destruct (c =? d)%char eqn:E.
      * apply Ascii.eqb_eq in E. subst d.
        rewrite (IH b n Ha Hb) by (simpl in Hn; lia).
        split; [now intros -> | now intros [= ->]].
      * pose proof (code_diff c d E). apply Ascii.eqb_neq in E.
        split; [lia | intros [= -> _]; contradiction].
Qed.

(** The test that sends a request down the kernel path holds for the name
    [kernel] and for no other C string, when [BIN_NAME_MAX] is larger than
    the six characters of that name. *)
Theorem kernel_dispatch_exact (name : string) :
  (6 < BIN_NAME_MAX)%nat -> cstring name = true ->
  ((strncmp "kernel" name BIN_NAME_MAX =? 0) = true <-> name = "kernel"%string).
Proof.
  intros Hn Hc. rewrite Z.eqb_eq, strncmp_equal; auto.
  split; intros H; now symmetry.
Qed.

End Names.


(* ================================================================== *)
(** ** The entry-creation service: results, files kept, files created *)

Section EntryCreationOutcomes.

Context {cfg : Config} {tbl : BinaryTable}.

Lemma clear_binfile_codes bin_idx w :
  fst (binary_manager_clear_binfile bin_idx w) = BINMGR_OK
  \/ fst (binary_manager_clear_binfile bin_idx w) = BINMGR_OPERATION_FAIL.
Proof.
  cbv beta iota zeta delta [binary_manager_clear_binfile bind gets ret].
  destruct (opendir BINARY_DIR_PATH w) as [[dirp|] w1].
  - destruct (clear_loop _ _ dirp w1). now left.
  - destruct (negb (errno w1 =? ENOENT)); [now right | now left].
Qed.

Lemma create_new_file_codes name version msg w :
  result (fst (create_new_file name version msg w)) = BINMGR_OK
  \/ result (fst (create_new_file name version msg w))
     = BINMGR_OPERATION_FAIL.
Proof.
  cbv beta iota zeta delta [create_new_file bind gets ret].
  destruct (open_creat _ w) as [fd w1].
  destruct (fd >? 0); [now left |].
  destruct (errno w1 =? ENOENT); [| now right].
  destruct (mkdir _ w1) as [r w2].
  destruct (r =? OK); [| now right].
  destruct (open_creat _ w2) as [fd2 w3].
  destruct (fd2 >? 0); [now left | now right].
Qed.

(** The results with which the user path ends before a file is created. *)
Lemma prepare_user_binary_codes name version w r :
  fst (prepare_user_binary name version w) = Some r ->
  r = BINMGR_ALREADY_UPDATED \/ r = BINMGR_OPERATION_FAIL
  \/ (r = BINMGR_OK /\ BINMGR_OK < 0).
Proof.
  cbv beta iota delta [prepare_user_binary bind gets ret get_index_with_name].
  destruct (_ >=? 0).
  - destruct (_ =? version); [intros [= <-]; now left |].
    pose proof (clear_binfile_codes
      (binary_manager_get_index_with_name (bin_table w) name) w) as Hc.
    destruct (binary_manager_clear_binfile _ w) as [ret w1]. cbn [fst] in *.
    destruct (ret <? 0) eqn:E; [| discriminate].
    intros [= <-]. apply Z.ltb_lt in E.
    destruct Hc as [-> | ->]; auto.
  - destruct (register_ubin name w) as [ret w1].
    destruct (ret <? 0); [intros [= <-]; auto | discriminate].
Qed.

(** Whatever the request and whatever the system calls do, the result of
    [binary_manager_create_entry] is one of the five result codes: the
    indeterminate value [response_msg] starts with is never returned. *)
Theorem create_entry_result_codes pid name version w :
  let r := fst (binary_manager_create_entry pid name version w) in
  r = BINMGR_OK \/ r = BINMGR_INVALID_PARAM \/ r = BINMGR_NOT_FOUND
  \/ r = BINMGR_ALREADY_UPDATED \/ r = BINMGR_OPERATION_FAIL.
Proof.
  cbv zeta. rewrite create_entry_unfold. cbn [fst].
  cbv beta iota delta [create_entry_response bind gets ret
    binary_manager_get_kdata].
  destruct name as [n|]; [| cbn; auto].
  destruct ((pid <? 0) || (version <? 0)); [cbn; auto |].
  destruct (strncmp "kernel" n BIN_NAME_MAX =? 0).
  - destruct (part_count (kdata w) >? 1); cbn; auto.
  - pose proof (prepare_user_binary_codes n version w) as Hp.
    destruct (prepare_user_binary n version w) as [[r|] w1]; cbn [fst] in *.
    + cbn. destruct (Hp r eq_refl) as [-> | [-> | [-> _]]]; auto.
    + destruct (create_new_file_codes n version (auto_response w) w1)
        as [-> | ->]; auto.
Qed.




End EntryCreationOutcomes.


(* ================================================================== *)
(** ** The entry-creation service and the files of the store *)

(** Splits an action along its binds and case distinctions. *)
Ltac keeps :=
  repeat first
    [ apply preserves_ret
    | apply preserves_gets
    | apply preserves_modify; intros; reflexivity
    | apply preserves_pop_fault; intros; reflexivity
    | apply preserves_register_ubin; intros; reflexivity
    | assumption
    | apply preserves_bind; [| intros]
    | match goal with
      | |- preserves _ (match ?x with _ => _ end) => destruct x
      end ].

Section EntryCreationFiles.

Context {cfg : Config} {tbl : BinaryTable}.

Lemma open_creat_keeps path entries w :
  store w = Some entries ->
  exists entries',
    store (snd (open_creat path w)) = Some entries'
    /\ forall e, In e entries -> In e entries'.
Proof.
  intros Hs. cbv beta iota delta [open_creat bind pop_fault gets modify ret].
  destruct (hd None (faults w)); cbn [store set_faults set_errno snd].
  { exists entries. auto. }
  rewrite Hs. destruct (store_child path) as [n|].
  2: { exists entries. cbn [snd store set_errno set_faults]. auto. }
  destruct (find (named n) entries) as [e|].
  - exists entries.
    destruct (DIRENT_ISFILE (d_type e));
      cbn [snd store set_errno set_faults]; auto.
  - exists (entries ++ [new_file n]).
    cbn [snd store set_store set_faults]. split; [reflexivity |].
    intros e He. apply in_or_app. now left.
Qed.

Lemma mkdir_keeps path entries w :
  store w = Some entries -> store (snd (mkdir path w)) = Some entries.
Proof.
  intros Hs. cbv beta iota delta [mkdir bind pop_fault gets modify ret].
  destruct (hd None (faults w)); cbn [store set_faults set_errno snd];
    [exact Hs |].
  rewrite Hs. cbn [snd store set_errno set_faults]. exact Hs.
Qed.

(** Creating the file removes nothing. *)
Lemma create_new_file_keeps name version msg entries w :
  store w = Some entries ->
  exists entries',
    store (snd (create_new_file name version msg w)) = Some entries'
    /\ forall e, In e entries -> In e entries'.
Proof.
  intros Hs. cbv beta iota zeta delta [create_new_file bind gets ret].
  destruct (open_creat_keeps (binfile_path name version) entries w Hs)
    as (e1 & Hs1 & Hk1).
  destruct (open_creat _ w) as [fd w1]. cbn [snd] in Hs1.
  destruct (fd >? 0); [exists e1; auto |].
  destruct (errno w1 =? ENOENT); [| exists e1; auto].
  pose proof (mkdir_keeps BINARY_DIR_PATH e1 w1 Hs1) as Hs2.
  destruct (mkdir _ w1) as [r w2]. cbn [snd] in Hs2.
  destruct (r =? OK); [| exists e1; auto].
  destruct (open_creat_keeps (binfile_path name version) e1 w2 Hs2)
    as (e3 & Hs3 & Hk3).
  destruct (open_creat _ w2) as [fd2 w3]. cbn [snd] in Hs3.
  destruct (fd2 >? 0); exists e3; auto.
Qed.

(** What the user path removes before the file is created: regular files,
    and only for a name the table knows. *)
Lemma prepare_user_binary_keeps name version entries w :
  store w = Some entries ->
  exists entries',
    store (snd (prepare_user_binary name version w)) = Some entries'
    /\ forall e, In e entries ->
         DIRENT_ISFILE (d_type e) = false
         \/ binary_manager_get_index_with_name (bin_table w) name < 0 ->
         In e entries'.
Proof.
  intros Hs.
  cbv beta iota delta [prepare_user_binary bind gets ret get_index_with_name].
  destruct (_ >=? 0) eqn:E.
  - destruct (_ =? version); [exists entries; cbn [snd]; auto |].
    destruct (clear_binfile_spares
                (binary_manager_get_index_with_name (bin_table w) name)
                entries w Hs) as (rem & H1 & _ & H3).
    destruct (binary_manager_clear_binfile _ w) as [ret w1]. cbn [snd] in H1.
    exists rem. split; [now destruct (ret <? 0) |].
    intros e He [Hf | Hi]; [apply H3; auto |].
    apply Z.geb_le in E. lia.
  - exists entries. unfold register_ubin.
    destruct (binary_manager_register_ubin (bin_table w) name) as [ret t].
    split; [now destruct (ret <? 0) | auto].
Qed.

(** Whatever the request and whatever the system calls do,
    [binary_manager_create_entry] removes no entry that is not a regular
    file, and removes nothing at all when the request names no binary or a
    binary the table does not know. *)
Theorem create_entry_removes_only_known_versions pid name version entries w :
  store w = Some entries ->
  exists final,
    store (snd (binary_manager_create_entry pid name version w)) = Some final
    /\ (forall e, In e entries ->
          DIRENT_ISFILE (d_type e) = false -> In e final)
    /\ ((forall n, name = Some n ->
           binary_manager_get_index_with_name (bin_table w) n < 0) ->
        forall e, In e entries -> In e final).
Proof.
  intros Hs. rewrite create_entry_unfold. cbn [snd]. unfold sent.
  cbn [store set_mq].
  cbv beta iota delta [create_entry_response bind gets ret
    binary_manager_get_kdata].
  destruct name as [n|]; [| exists entries; cbn [snd]; auto].
  destruct ((pid <? 0) || (version <? 0)); [exists entries; cbn [snd]; auto |].
  destruct (strncmp "kernel" n BIN_NAME_MAX =? 0).
  { exists entries. destruct (part_count (kdata w) >? 1); cbn [snd]; auto. }
  destruct (prepare_user_binary_keeps n version entries w Hs)
    as (mid & Hm & Hkeep).
  destruct (prepare_user_binary n version w) as [[r|] w1]; cbn [snd] in Hm.
  - exists mid. cbn [snd]. split; [exact Hm |]. split.
    + intros e He Hf. apply Hkeep; auto.
    + intros Hnew e He. apply Hkeep; auto.
  - destruct (create_new_file_keeps n version (auto_response w) mid w1 Hm)
      as (final & Hf & Hk).
    exists final. split; [exact Hf |]. split.
    + intros e He Hfile. apply Hk, Hkeep; auto.
    + intros Hnew e He. apply Hk, Hkeep; auto.
Qed.

(** A valid request for a binary the table does not know and cannot
    register is answered [BINMGR_OPERATION_FAIL]; no system call is made and
    the store is as before. *)
Theorem create_entry_registration_fails pid name version w :
  0 <= pid -> 0 <= version ->
  strncmp "kernel" name BIN_NAME_MAX <> 0 ->
  binary_manager_get_index_with_name (bin_table w) name < 0 ->
  fst (binary_manager_register_ubin (bin_table w) name) < 0 ->
  let out := binary_manager_create_entry pid (Some name) version w in
  fst out = BINMGR_OPERATION_FAIL
  /\ store (snd out) = store w
  /\ faults (snd out) = faults w
  /\ mq (snd out)
     = mq w ++ [(response_q_name pid,
                 set_result BINMGR_OPERATION_FAIL (auto_response w))].
Proof.
  intros Hp Hv Hk Hi Hr out. subst out.
  rewrite create_entry_unfold, (response_user _ _ _ _ Hp Hv Hk).
  cbv beta iota delta [prepare_user_binary bind gets ret get_index_with_name
    register_ubin].
  assert (E : (binary_manager_get_index_with_name (bin_table w) name >=? 0)
              = false).
  { destruct (Z.geb_spec (binary_manager_get_index_with_name (bin_table w) name)
                         0); [lia | reflexivity]. }
  rewrite E.
  destruct (binary_manager_register_ubin (bin_table w) name) as [r t].
  cbn [fst] in Hr. apply Z.ltb_lt in Hr. rewrite Hr. cbn. auto.
Qed.

Lemma open_creat_existing path fname e entries w :
  store w = Some entries -> hd None (faults w) = None ->
  store_child path = Some fname ->
  find (named fname) entries = Some e ->
  DIRENT_ISFILE (d_type e) = true ->
  open_creat path w = (next_fd w, after_call w).
Proof.
  intros Hs Hf Hc Hn He.
  cbv beta iota delta [open_creat bind pop_fault modify ret gets after_call].
  rewrite Hf. cbn [store set_faults]. rewrite Hs, Hc, Hn, He. reflexivity.
Qed.

(** The directory is there and the first [open] goes through. *)
Lemma create_new_file_present name version msg fname entries w :
  store w = Some entries -> hd None (faults w) = None ->
  store_child (binfile_path name version) = Some fname ->
  0 < next_fd w ->
  (forall e, In e entries -> d_name e = fname ->
     DIRENT_ISFILE (d_type e) = true) ->
  fst (create_new_file name version msg w)
  = {| result := BINMGR_OK; binpath := binfile_path name version |}
  /\ store (snd (create_new_file name version msg w))
     = Some (with_file fname entries)
  /\ faults (snd (create_new_file name version msg w)) = tl (faults w).
Proof.
  intros Hs Hf Hc Hfd Hreg. apply Z.gtb_lt in Hfd.
  cbv beta iota zeta delta [create_new_file bind gets ret]. unfold with_file.
  destruct (find (named fname) entries) as [e|] eqn:F.
  - assert (He : DIRENT_ISFILE (d_type e) = true).
    { apply find_some in F as [Hin Hn]. apply String.eqb_eq in Hn. auto. }
    rewrite (open_creat_existing _ fname e entries w Hs Hf Hc F He).
    rewrite Hfd, binpath_copied. cbn. auto.
  - rewrite (open_creat_new _ fname entries w Hs Hf Hc F).
    rewrite Hfd, binpath_copied. cbn. auto.
Qed.

(** A valid request for a binary the table does not know, in a store that
    is there and with system calls that go through: the binary is
    registered, the file of the version is in the store (created unless a
    regular file of that name was there), every entry is kept, and the
    answer is [BINMGR_OK] with the path of the file. *)
Theorem create_entry_new_binary pid name version fname entries w :
  0 <= pid -> 0 <= version ->
  strncmp "kernel" name BIN_NAME_MAX <> 0 ->
  binary_manager_get_index_with_name (bin_table w) name < 0 ->
  0 <= fst (binary_manager_register_ubin (bin_table w) name) ->
  store w = Some entries -> hd None (faults w) = None ->
  0 < next_fd w ->
  store_child (binfile_path name version) = Some fname ->
  (forall e, In e entries -> d_name e = fname ->
     DIRENT_ISFILE (d_type e) = true) ->
  let out := binary_manager_create_entry pid (Some name) version w in
  fst out = BINMGR_OK
  /\ bin_table (snd out)
     = snd (binary_manager_register_ubin (bin_table w) name)
  /\ store (snd out) = Some (with_file fname entries)
  /\ mq (snd out)
     = mq w ++ [(response_q_name pid,
                 {| result := BINMGR_OK;
                    binpath := binfile_path name version |})].
Proof.
  intros Hp Hv Hk Hi Hr Hs Hf Hfd Hc Hreg out. subst out.
  rewrite create_entry_unfold, (response_user _ _ _ _ Hp Hv Hk).
  rewrite (prepare_new_binary name version w Hi Hr). cbn [fst snd].
  destruct (create_new_file_present name version (auto_response w) fname
              entries
              (set_bin_table
                 (snd (binary_manager_register_ubin (bin_table w) name)) w))
    as (H1 & H2 & _); auto.
  pose proof (table_create_new_file name version (auto_response w)
    (set_bin_table (snd (binary_manager_register_ubin (bin_table w) name)) w))
    as Ht.
  pose proof (mq_create_new_file name version (auto_response w)
    (set_bin_table (snd (binary_manager_register_ubin (bin_table w) name)) w))
    as Hq.
  destruct (create_new_file _ _ _ _) as [m w2]. cbn [fst snd] in *.
  subst m. unfold sent. cbn. rewrite Hq. auto.
Qed.

(** The collector leaves the descriptors alone. *)
Lemma next_fd_clear_binfile bin_idx :
  preserves next_fd (binary_manager_clear_binfile bin_idx).
Proof.
  assert (Hu : forall p, preserves next_fd (unlink p))
    by (intros p; unfold unlink; keeps).
  assert (Hl : forall N R dirp, preserves next_fd (clear_loop N R dirp)).
  { intros N R dirp. induction dirp as [|s rest IH]; simpl; keeps;
      apply Hu. }
  unfold binary_manager_clear_binfile, opendir. cbv zeta.
  keeps; apply Hl.
Qed.

(** A valid request for another version of a binary the table knows, in a
    store that is there, with system calls that go through and paths that
    fit: the entries that pass the collector's test are removed first, then
    the file of the requested version is opened, created when it is not
    there; the binary table is as before and the answer is [BINMGR_OK] with
    the path of the file. *)
Theorem create_entry_supersedes pid name version fname entries w :
  let bin_idx := binary_manager_get_index_with_name (bin_table w) name in
  let cleared :=
    filter (fun e => negb (not_running (BIN_NAME (bin_table w) bin_idx)
                             (running_file bin_idx w) e)) entries in
  0 <= pid -> 0 <= version ->
  strncmp "kernel" name BIN_NAME_MAX <> 0 ->
  0 <= bin_idx ->
  BIN_VER (bin_table w) bin_idx <> version ->
  0 <= BINMGR_OK ->
  store w = Some entries -> faults w = [] ->
  0 < next_fd w ->
  (forall e, In e entries ->
     valid_name (d_name e) = true
     /\ (String.length BINARY_DIR_PATH + 1 + String.length (d_name e)
         < NAME_MAX)%nat) ->
  store_child (binfile_path name version) = Some fname ->
  (forall e, In e entries -> d_name e = fname ->
     DIRENT_ISFILE (d_type e) = true) ->
  let out := binary_manager_create_entry pid (Some name) version w in
  fst out = BINMGR_OK
  /\ bin_table (snd out) = bin_table w
  /\ store (snd out) = Some (with_file fname cleared)
  /\ mq (snd out)
     = mq w ++ [(response_q_name pid,
                 {| result := BINMGR_OK;
                    binpath := binfile_path name version |})].
Proof.
  intros bin_idx cleared Hp Hv Hk Hi Hver H0 Hs Hf Hfd Hfit Hc Hreg out.
  subst out.
  rewrite create_entry_unfold, (response_user _ _ _ _ Hp Hv Hk).
  destruct (clear_binfile_store bin_idx entries w Hf Hs) as (C1 & C2 & C3).
  { intros s Hin _. destruct (Hfit s Hin). now apply store_child_path. }
  pose proof (table_clear_binfile bin_idx w) as Ct.
  pose proof (mq_clear_binfile bin_idx w) as Cq.
  assert (Hprep : prepare_user_binary name version w
                  = (None, snd (binary_manager_clear_binfile bin_idx w))).
  { cbv beta iota delta [prepare_user_binary bind gets ret
      get_index_with_name].
    fold bin_idx. apply Z.geb_le in Hi. apply Z.eqb_neq in Hver.
    rewrite Hi, Hver.
    destruct (binary_manager_clear_binfile bin_idx w) as [ret w1].
    cbn [fst snd] in *. subst ret.
    destruct (Z.ltb_spec BINMGR_OK 0); [lia | reflexivity]. }
  rewrite Hprep. cbn [fst snd].
  set (w1 := snd (binary_manager_clear_binfile bin_idx w)) in *.
  destruct (create_new_file_present name version (auto_response w) fname
              cleared w1) as (H1 & H2 & _); auto.
  { now rewrite C3. }
  { unfold w1. now rewrite (next_fd_clear_binfile bin_idx w). }
  { intros e He. apply Hreg. unfold cleared in He.
    apply filter_In in He. tauto. }
  pose proof (table_create_new_file name version (auto_response w) w1) as Ht.
  pose proof (mq_create_new_file name version (auto_response w) w1) as Hq.
  destruct (create_new_file _ _ _ w1) as [m w2]. cbn [fst snd] in *.
  subst m. unfold sent. cbn. rewrite Hq, Ht, Cq, Ct. auto.
Qed.

End EntryCreationFiles.


(* ================================================================== *)
(** ** The kernel path and the scanner, in general *)

Section KernelAndScanner.

Context {cfg : Config} {tbl : BinaryTable}.

(** A valid request for the kernel, whatever the number of partitions: with
    more than one the answer is [BINMGR_OK] and the device name of the
    partition whose index is the index in use with its lowest bit flipped;
    with one or none it is [BINMGR_NOT_FOUND]. *)
Theorem create_entry_kernel_any_count pid version w :
  0 <= pid -> 0 <= version ->
  let out := binary_manager_create_entry pid (Some "kernel"%string) version w in
  (1 < part_count (kdata w) ->
     out = (BINMGR_OK,
            sent pid
              {| result := BINMGR_OK;
                 binpath := kernel_devname (kdata w)
                              (Z.lxor (inuse_idx (kdata w)) 1) |} w))
  /\ (part_count (kdata w) <= 1 ->
        out = (BINMGR_NOT_FOUND,
               sent pid (set_result BINMGR_NOT_FOUND (auto_response w)) w)).
Proof.
  intros Hp Hv out. subst out.
  rewrite create_entry_unfold, (response_kernel _ _ _ Hp Hv). split; intros H.
  - apply Z.gtb_lt in H. rewrite H. reflexivity.
  - destruct (Z.gtb_spec (part_count (kdata w)) 1); [lia | reflexivity].
Qed.

Lemma scan_loop_registers_parsed entries : forall rest w,
  store w = Some entries -> scannable entries ->
  (forall x, In x rest -> In x entries) ->
  bin_table (snd (scan_loop rest w))
  = register_all (parsed_names rest) (bin_table w).
Proof.
  induction rest as [|e rest IH]; intros w Hs Hsc Hsub; [reflexivity |].
  rewrite scan_loop_cons, IH; auto.
  - unfold scan_entry, register_all. cbn [parsed_names flat_map].
    rewrite fold_left_app.
    destruct (DIRENT_ISFILE (d_type e)) eqn:Hf; [| reflexivity].
    rewrite (read_header_entry entries e w Hs Hsc); auto.
    + destruct (d_header e) as [h|]; [| reflexivity].
      unfold register_ubin. cbn [fold_left].
      now destruct (binary_manager_register_ubin (bin_table w) (bin_name h)).
    + apply Hsub. now left.
  - now rewrite store_scan_entry.
  - intros x Hx. apply Hsub. now right.
Qed.

(** For a store the scanner can read, the binary table after a scan is the
    table before it with the names in the headers registered one after the
    other, in directory order: the names of the regular files whose header
    parses, and nothing else of them. *)
Theorem scan_registers_parsed_names entries w :
  store w = Some entries -> hd None (faults w) = None ->
  scannable entries ->
  bin_table (snd (binary_manager_scan_ubin w))
  = register_all (parsed_names entries) (bin_table w).
Proof.
  intros Hs Hf Hsc. unfold binary_manager_scan_ubin, bind.
  rewrite (opendir_present entries w Hs Hf).
  rewrite (scan_loop_registers_parsed entries entries (after_call w)); auto.
Qed.

Lemma mq_scan_ubin : preserves mq binary_manager_scan_ubin.
Proof.
  assert (Hl : forall dirp, preserves mq (scan_loop dirp)).
  { induction dirp as [|e rest IH]; simpl; [keeps |].
    unfold binary_manager_read_header. keeps. }
  unfold binary_manager_scan_ubin, opendir. keeps; apply Hl.
Qed.

Lemma read_header_unparsable path entries w :
  store w = Some entries ->
  (forall e, In e entries -> DIRENT_ISFILE (d_type e) = true ->
     d_header e = None) ->
  fst (binary_manager_read_header path w) = None.
Proof.
  intros Hs Hnone. unfold binary_manager_read_header, bind, gets, ret.
  rewrite Hs. destruct (store_child path) as [n|]; [| reflexivity].
  destruct (find (named n) entries) as [e|] eqn:F; [| reflexivity].
  apply find_some in F as [Hin _].
  destruct (DIRENT_ISFILE (d_type e)) eqn:Hf; [| reflexivity].
  cbn [fst]. auto.
Qed.

Lemma scan_loop_unparsable entries : forall dirp w,
  store w = Some entries ->
  (forall e, In e entries -> DIRENT_ISFILE (d_type e) = true ->
     d_header e = None) ->
  bin_table (snd (scan_loop dirp w)) = bin_table w.
Proof.
  induction dirp as [|e rest IH]; intros w Hs Hnone; [reflexivity |].
  rewrite scan_loop_cons.
  assert (E : scan_entry e w = w).
  { unfold scan_entry. destruct (DIRENT_ISFILE (d_type e)); [| reflexivity].
    now rewrite (read_header_unparsable _ entries w Hs Hnone). }
  rewrite E. now apply IH.
Qed.

(** The scanner reads: whatever it finds and whatever the system calls do,
    the store and the response queues are as before.  It registers nothing
    when the store directory is missing, when [opendir] fails, and when no
    regular file of the store has a header that parses. *)
Theorem scan_reads_only w :
  let out := binary_manager_scan_ubin w in
  store (snd out) = store w
  /\ mq (snd out) = mq w
  /\ (store w = None -> bin_table (snd out) = bin_table w)
  /\ (hd None (faults w) <> None -> bin_table (snd out) = bin_table w)
  /\ (forall entries,
        store w = Some entries ->
        (forall e, In e entries -> DIRENT_ISFILE (d_type e) = true ->
           d_header e = None) ->
        bin_table (snd out) = bin_table w).
Proof.
  cbv zeta. split; [apply store_scan_ubin |]. split; [apply mq_scan_ubin |].
  split; [| split].
  - intros Hs.
    cbv beta iota delta [binary_manager_scan_ubin opendir bind pop_fault
      modify ret gets].
    destruct (hd None (faults w)); [reflexivity |].
    cbn [store set_faults]. rewrite Hs. reflexivity.
  - intros Hf.
    cbv beta iota delta [binary_manager_scan_ubin opendir bind pop_fault
      modify ret gets].
    destruct (hd None (faults w)); [reflexivity | contradiction].
  - intros entries Hs Hnone. unfold binary_manager_scan_ubin, bind.
    pose proof (store_opendir BINARY_DIR_PATH w) as Ho.
    pose proof (table_opendir BINARY_DIR_PATH w) as Ht.
    destruct (opendir BINARY_DIR_PATH w) as [[dirp|] w1]; cbn [snd] in *.
    + rewrite <- Ht. apply (scan_loop_unparsable entries); [| exact Hnone].
      now rewrite Ho.
    + exact Ht.
Qed.

End KernelAndScanner.


(* ================================================================== *)
(** ** The further properties on the board *)

Section BoardOutcomes.

#[local] Existing Instance board_config.

(** The collector on [foo_world] leaves the running file [foo_1]. *)
Lemma clear_binfile_spares_running_file_witness :
  exists remaining,
    store (snd (binary_manager_clear_binfile 0 foo_world)) = Some remaining
    /\ In (file "foo_1" None) remaining.
Proof.
  destruct (clear_binfile_spares_running_file 0
              [file "foo_1" None; file "foo_2" None; file "foobar_1" None;
               file "foo_3" None] foo_world eq_refl eq_refl)
    as (_ & _ & remaining & Hs & _ & _ & Hrun).
  exists remaining. split; [exact Hs |].
  apply Hrun; [simpl; auto | reflexivity].
Defined.

(** The collector on [foo_world] leaves the file of [foobar]. *)
Lemma clear_binfile_spares_other_binaries_witness :
  exists remaining,
    store (snd (binary_manager_clear_binfile 0 foo_world)) = Some remaining
    /\ In (file "foobar_1" None) remaining.
Proof.
  destruct (clear_binfile_spares_other_binaries 0
              [file "foo_1" None; file "foo_2" None; file "foobar_1" None;
               file "foo_3" None] foo_world eq_refl eq_refl)
    as (remaining & Hs & Hother).
  - simpl. lia.
  - exists remaining. split; [exact Hs |].
    apply Hother; [simpl; auto | reflexivity].
Defined.

(** The collector on [stuck_world] reports [BINMGR_OK] and removes
    nothing. *)
Lemma clear_binfile_ignores_unlink_failures_witness :
  fst (binary_manager_clear_binfile 0 stuck_world) = BINMGR_OK
  /\ store (snd (binary_manager_clear_binfile 0 stuck_world))
     = store foo_world.
Proof.
  apply (clear_binfile_ignores_unlink_failures 0
           [file "foo_1" None; file "foo_2" None; file "foobar_1" None;
            file "foo_3" None]
           [Some 13; Some 13; Some 13; Some 13] stuck_world eq_refl eq_refl).
  - repeat constructor; discriminate.
  - simpl. lia.
Defined.

(** The collector run twice on [foo_world]. *)
Lemma clear_binfile_twice_witness :
  store (snd (binary_manager_clear_binfile 0
                (snd (binary_manager_clear_binfile 0 foo_world))))
  = store (snd (binary_manager_clear_binfile 0 foo_world)).
Proof.
  refine (proj2 (clear_binfile_twice 0
            [file "foo_1" None; file "foo_2" None; file "foobar_1" None;
             file "foo_3" None] foo_world eq_refl eq_refl _)).
  intros e [<- | [<- | [<- | [<- | []]]]]; (split; [reflexivity | simpl; lia]).
Defined.

(** The queues of the requesters 5 and 7. *)
Lemma response_q_name_injective_witness :
  response_q_name 5 <> response_q_name 7.
Proof.
  apply response_q_name_injective; [simpl; lia | simpl; lia | discriminate].
Defined.

(** The files of versions 1 and 2 of [app]. *)
Lemma binfile_path_injective_witness :
  binfile_path "app" 1 <> binfile_path "app" 2.
Proof.
  apply binfile_path_injective; [simpl; lia | simpl; lia | discriminate].
Defined.

(** A binary named [kernel2] is not taken for the kernel. *)
Lemma kernel_dispatch_exact_witness :
  (strncmp "kernel" "kernel2" BIN_NAME_MAX =? 0) = true
  <-> "kernel2"%string = "kernel"%string.
Proof.
  apply kernel_dispatch_exact; [simpl; lia | reflexivity].
Defined.


(** A request for the unknown binary [app] while the store cannot be
    opened removes nothing. *)
Lemma create_entry_removes_only_known_versions_witness :
  exists final,
    store (snd (binary_manager_create_entry 5 (Some "app"%string) 1
                  locked_world)) = Some final
    /\ In (file "foo_2" None) final.
Proof.
  destruct (create_entry_removes_only_known_versions 5 (Some "app"%string) 1
              [file "foo_1" None; file "foo_2" None; file "foobar_1" None;
               file "foo_3" None] locked_world eq_refl)
    as (final & Hs & _ & Hall).
  exists final. split; [exact Hs |].
  apply Hall; [| simpl; auto].
  intros n [= <-]. vm_compute. reflexivity.
Defined.

(** A request on a board whose table has no room. *)
Lemma create_entry_registration_fails_witness :
  fst (binary_manager_create_entry 5 (Some "app"%string) 1 full_world)
  = BINMGR_OPERATION_FAIL
  /\ store (snd (binary_manager_create_entry 5 (Some "app"%string) 1
                   full_world)) = Some [].
Proof.
  destruct (create_entry_registration_fails 5 "app" 1 full_world)
    as (H1 & H2 & _); [lia | lia | discriminate | reflexivity | reflexivity |].
  split; assumption.
Defined.

(** Version 1 of [app] requested on a board whose store is empty. *)
Lemma create_entry_new_binary_witness :
  fst (binary_manager_create_entry 5 (Some "app"%string) 1 empty_store_world)
  = BINMGR_OK
  /\ store (snd (binary_manager_create_entry 5 (Some "app"%string) 1
                   empty_store_world))
     = Some [new_file "app_1"].
Proof.
  destruct (create_entry_new_binary 5 "app" 1 "app_1" [] empty_store_world)
    as (H1 & _ & H3 & _);
    try reflexivity; try lia; try discriminate.
  - intros e [].
  - split; assumption.
Defined.

(** Version 2 of [foo] requested while [foo] runs version 1. *)
Lemma create_entry_supersedes_witness :
  fst (binary_manager_create_entry 5 (Some "foo"%string) 2 foo_world)
  = BINMGR_OK
  /\ store (snd (binary_manager_create_entry 5 (Some "foo"%string) 2
                   foo_world))
     = Some [file "foo_1" None; file "foobar_1" None; new_file "foo_2"].
Proof.
  destruct (create_entry_supersedes 5 "foo" 2 "foo_2"
              [file "foo_1" None; file "foo_2" None; file "foobar_1" None;
               file "foo_3" None] foo_world)
    as (H1 & _ & H3 & _).
  - lia.
  - lia.
  - discriminate.
  - vm_compute. discriminate.
  - vm_compute. discriminate.
  - vm_compute. discriminate.
  - reflexivity.
  - reflexivity.
  - reflexivity.
  - intros e [<- | [<- | [<- | [<- | []]]]]; (split; [reflexivity | simpl; lia]).
  - reflexivity.
  - intros e [<- | [<- | [<- | [<- | []]]]]; intros; reflexivity.
  - split; [exact H1 | exact H3].
Defined.

(** A kernel request on a board that reports no partition. *)
Lemma create_entry_kernel_any_count_witness :
  fst (binary_manager_create_entry 5 (Some "kernel"%string) 1
         (board_world 0 None []
            {| part_count := 0; inuse_idx := 0; part_info := [] |}))
  = BINMGR_NOT_FOUND.
Proof.
  destruct (create_entry_kernel_any_count 5 1
              (board_world 0 None []
                 {| part_count := 0; inuse_idx := 0; part_info := [] |}))
    as (_ & H); [lia | lia |].
  rewrite H; [reflexivity | simpl; lia].
Defined.

(** The scan of a store with [a_1] and [a_2] hands [a] to the table
    twice. *)
Lemma scan_registers_parsed_names_witness :
  bin_table (snd (binary_manager_scan_ubin two_versions_world))
  = register_all ["a"; "a"]%string (bin_table two_versions_world).
Proof.
  apply (scan_registers_parsed_names
           [file "a_1" (hdr "a" 1); file "a_2" (hdr "a" 2)]
           two_versions_world eq_refl eq_refl).
  split.
  - constructor; [simpl; intros [H | []]; discriminate H |].
    constructor; [simpl; tauto | constructor].
  - intros e [<- | [<- | []]]; (split; [reflexivity | simpl; lia]).
Defined.

End BoardOutcomes.
